(** * Citi Bike strategy dashboard: station popularity pipeline

    A shallow embedding of [st_dashboard_Part_2.py].  The script is a
    Streamlit page: it loads one CSV into a pandas frame, and, depending on
    the page picked in the sidebar, shapes the frame and hands the result to
    a plotting library.  The embedding follows the script top to bottom:

    - Python strings are sequences of Unicode code points ([pystr]);
    - a pandas frame is a list of column names and a list of rows of cells,
      a missing cell being pandas' NaN;
    - frames live in a store of objects addressed by references, so that
      in-place column assignment ([df1['value'] = 1]) and the copies taken by
      [query]/[copy] are visible;
    - Streamlit calls append to the list of rendered elements, and
      [st.stop()] ends the run. *)

From Stdlib Require Import ZArith NArith List Bool Lia Ascii String.
From Stdlib Require Import Sorting.Sorted Sorting.Permutation.
From Stdlib Require Import Numbers.DecimalString.
From stdpp Require Import base option list gmap.

Open Scope Z_scope.

(** ** Python strings *)

Module PyStr.

(** A [str] is a sequence of code points; [len] counts code points. *)
Definition pystr := list N.

(** An ASCII literal of the script as a [str]. *)
Definition py (s : string) : pystr :=
  List.map N_of_ascii (list_ascii_of_string s).

Definition len (s : pystr) : Z := Z.of_nat (List.length s).

(** The horizontal ellipsis U+2026 the script appends. *)
Definition ellipsis : N := 8230%N.

(** [str.rstrip()] with no argument strips the characters for which
    [str.isspace] holds: the Unicode white space of CPython. *)
Definition isspace (c : N) : bool :=
  ((9 <=? c) && (c <=? 13) || (28 <=? c) && (c <=? 32)
   || (c =? 133) || (c =? 160) || (c =? 5760)
   || (8192 <=? c) && (c <=? 8202)
   || (c =? 8232) || (c =? 8233) || (c =? 8239) || (c =? 8287)
   || (c =? 12288))%N.

Fixpoint rstrip (s : pystr) : pystr :=
  match s with
  | [] => []
  | c :: s' =>
      match rstrip s' with
      | [] => if isspace c then [] else [c]
      | r => c :: r
      end
  end.

(** [s[:k]] for an integer [k]: a negative stop counts from the end, and
    the stop is clipped to the string. *)
Definition slice_to (s : pystr) (k : Z) : pystr :=
  if k <? 0 then firstn (Z.to_nat (len s + k)) s
  else firstn (Z.to_nat k) s.

(** [needle in hay] on strings: substring test. *)
Fixpoint startswith (hay needle : pystr) : bool :=
  match needle, hay with
  | [], _ => true
  | _ :: _, [] => false
  | a :: needle', b :: hay' => (a =? b)%N && startswith hay' needle'
  end.

Fixpoint contains (needle hay : pystr) : bool :=
  startswith hay needle ||
  match hay with
  | [] => false
  | _ :: hay' => contains needle hay'
  end.

(** [shorten(name, n)], line 189 of the script:
    [name if len(name) <= n else name[:n-1].rstrip() + '…']. *)
Definition shorten (name : pystr) (n : Z) : pystr :=
  if len name <=? n then name
  else rstrip (slice_to name (n - 1)) ++ [ellipsis].

Definition endswith_ellipsis (s : pystr) : Prop :=
  exists t, s = t ++ [ellipsis].

End PyStr.

Import PyStr.

(** ** pandas frames *)

Module Pandas.

(** A cell of a frame read from a CSV: a number, a text, or a missing value
    (pandas' NaN).  Numbers are carried as integers: the pipeline only
    compares, counts and sorts them. *)
Inductive cell :=
| NaN
| Num (z : Z)
| Str (s : pystr).

#[global] Instance cell_eq_dec : EqDecision cell.
Proof. solve_decision. Defined.

Definition notna (c : cell) : bool :=
  match c with NaN => false | _ => true end.

(** A cell of a text column: a text, or left blank. *)
Definition text_or_missing (c : cell) : Prop :=
  c = NaN \/ exists s, c = Str s.

Definition is_text (c : cell) : Prop := exists s, c = Str s.

(** [columns] are the header names after the index column ([index_col=0]
    takes the first CSV column as row labels); a row shorter than the header
    reads as NaN in its missing places, as [read_csv] pads it. *)
Record DataFrame := {
  columns : list pystr;
  rows : list (list cell)
}.

Fixpoint index_of (name : pystr) (cols : list pystr) : option nat :=
  match cols with
  | [] => None
  | c :: cols' =>
      if decide (c = name) then Some O
      else option_map S (index_of name cols')
  end.

Definition cell_at (i : nat) (r : list cell) : cell := nth i r NaN.

(** [df[name]] as a list of cells; [None] is a [KeyError]. *)
Definition getcol (name : pystr) (d : DataFrame) : option (list cell) :=
  option_map (fun i => List.map (cell_at i) (rows d)) (index_of name (columns d)).

(** Writes [v] in place [i] of a row, padding a short row with NaN. *)
Fixpoint set_at (i : nat) (v : cell) (r : list cell) : list cell :=
  match i, r with
  | O, [] => [v]
  | O, _ :: r' => v :: r'
  | S i', [] => NaN :: set_at i' v []
  | S i', x :: r' => x :: set_at i' v r'
  end.

Fixpoint set_rows (i : nat) (vals : list cell) (rs : list (list cell))
  : list (list cell) :=
  match rs, vals with
  | [], _ => []
  | r :: rs', [] => set_at i NaN r :: set_rows i [] rs'
  | r :: rs', v :: vals' => set_at i v r :: set_rows i vals' rs'
  end.

(** [df[name] = vals]: overwrites the column when it exists, else appends
    it after the last column. *)
Definition setcol (name : pystr) (vals : list cell) (d : DataFrame) : DataFrame :=
  match index_of name (columns d) with
  | Some i => {| columns := columns d; rows := set_rows i vals (rows d) |}
  | None => {| columns := columns d ++ [name];
               rows := set_rows (List.length (columns d)) vals (rows d) |}
  end.

(** [df[name] = v] for a scalar [v]: broadcast to every row. *)
Definition setcol_scalar (name : pystr) (v : cell) (d : DataFrame) : DataFrame :=
  setcol name (repeat v (List.length (rows d))) d.

(** [x in selection], the test [query] applies when a column is compared
    with a list ([season == @season_filter]). *)
Definition isin (c : cell) (sel : list cell) : bool := bool_decide (c ∈ sel).

(** [df.query('name == @sel')]: the rows whose [name] cell is in [sel], as a
    new frame; [None] when the column does not exist. *)
Definition query_isin (name : pystr) (sel : list cell) (d : DataFrame)
  : option DataFrame :=
  option_map
    (fun i => {| columns := columns d;
                 rows := List.filter (fun r => isin (cell_at i r) sel) (rows d) |})
    (index_of name (columns d)).

(** [df.empty]: some axis has length zero. *)
Definition empty (d : DataFrame) : bool :=
  (Nat.eqb (List.length (columns d)) 0) || (Nat.eqb (List.length (rows d)) 0).

(** [Series.count()]: the present values. *)
Definition count (s : list cell) : Z :=
  Z.of_nat (List.length (List.filter notna s)).

(** [Series.unique()]: the values in order of first appearance. *)
Fixpoint unique (s : list cell) : list cell :=
  match s with
  | [] => []
  | x :: s' => x :: List.filter (fun y => negb (bool_decide (y = x))) (unique s')
  end.

(** Order of group keys: numbers by value, texts by code points, numbers
    before texts. *)
Fixpoint pystr_leb (a b : pystr) : bool :=
  match a, b with
  | [], _ => true
  | _ :: _, [] => false
  | x :: a', y :: b' => (x <? y)%N || ((x =? y)%N && pystr_leb a' b')
  end.

Definition cell_leb (a b : cell) : bool :=
  match a, b with
  | Num x, Num y => x <=? y
  | Num _, _ => true
  | Str _, Num _ => false
  | Str x, Str y => pystr_leb x y
  | Str _, NaN => true
  | NaN, NaN => true
  | NaN, _ => false
  end.

(** A stable insertion sort: [x] goes in front of the first element it may
    precede, so equal elements keep their order. *)
Fixpoint insert_by {A} (before : A -> A -> bool) (x : A) (l : list A) : list A :=
  match l with
  | [] => [x]
  | y :: l' => if before x y then x :: l else y :: insert_by before x l'
  end.

Definition sort_by {A} (before : A -> A -> bool) (l : list A) : list A :=
  fold_right (insert_by before) [] l.

(** The sum of a numeric column; missing values are skipped. *)
Definition sum_cells (s : list cell) : Z :=
  fold_right (fun c acc => match c with Num z => z + acc | _ => acc end) 0 s.

(** The [vals] of the rows whose key is [k]. *)
Fixpoint group_vals (k : cell) (keys vals : list cell) : list cell :=
  match keys, vals with
  | k' :: keys', v :: vals' =>
      if decide (k' = k) then v :: group_vals k keys' vals'
      else group_vals k keys' vals'
  | _, _ => []
  end.

(** [groupby(key, as_index=False).agg({'value': 'sum'})] with the defaults
    [sort=True] and [dropna=True]: one row per present key, keys in
    increasing order, each with the sum of its rows' values. *)
Definition groupby_sum (keys vals : list cell) : list (cell * Z) :=
  List.map (fun k => (k, sum_cells (group_vals k keys vals)))
           (sort_by cell_leb (unique (List.filter notna keys))).

(** [g['value'].sum()] on an aggregated frame. *)
Definition sum_values (g : list (cell * Z)) : Z :=
  fold_right (fun kv acc => snd kv + acc) 0 g.

(** Counts in decreasing order. *)
Definition by_value_desc (x y : cell * Z) : Prop := snd y <= snd x.

(** The aggregates of a key column when every row carries the indicator
    [value = 1], as the page sets it before grouping. *)
Definition station_counts (keys : list cell) : list (cell * Z) :=
  groupby_sum keys (repeat (Num 1) (List.length keys)).

(** [nlargest(n, 'value')] with the default [keep='first']: the [n] rows of
    largest value, largest first.  With more than [n] rows pandas keeps ties
    in their original order, as the stable sort here does.  With [n] rows
    or fewer pandas sorts the whole column with its default sort, which
    fixes no order among equal values: there the order among ties below is
    one of the orders pandas may give, and nothing proved about the page
    depends on it. *)
Definition nlargest (n : nat) (g : list (cell * Z)) : list (cell * Z) :=
  firstn n (sort_by (fun x y => snd y <=? snd x) g).

(** [astype(str)] on a cell.  A number prints as an integer column prints
    it (['5']); a numeric column that pandas holds as floats prints ['5.0'],
    which the integer cells do not tell apart, so what is proved about the
    text of a label is proved for stations given as text. *)
Definition astype_str (c : cell) : pystr :=
  match c with
  | NaN => py "nan"
  | Num z => py (NilZero.string_of_int (Z.to_int z))
  | Str s => s
  end.

(** The frame [groupby(...).agg(...)] returns here: the key column under
    its name, the integer column ['value'], and the ['tick_label'] column
    once it has been assigned. *)
Record Aggregated := {
  by_col : pystr;
  agg : list (cell * Z);
  tick_label : option (list pystr)
}.

End Pandas.

Import Pandas.

(** ** Temperature normalization (lines 86-90)

    [df['avgTemp'].max() > 100] decides whether the column is cumulative;
    if so the daily value is [df['avgTemp'].diff().fillna(df['avgTemp'])].
    The arithmetic of the readings is left open: the functions only
    subtract and compare. *)

Section Temperature.

Context {num : Type}.
Variable sub : num -> num -> num.
Variable gtb : num -> num -> bool.
Variable hundred : num.

(** A numeric column: [None] is a missing reading (NaN). *)
Definition series := list (option num).

(** [Series.max()]: the largest present value, NaN (here [None]) when there
    is none. *)
Fixpoint series_max (s : series) : option num :=
  match s with
  | [] => None
  | None :: s' => series_max s'
  | Some x :: s' =>
      match series_max s' with
      | None => Some x
      | Some m => Some (if gtb m x then m else x)
      end
  end.

(** [a - b] on readings: missing when either side is. *)
Definition delta (prev cur : option num) : option num :=
  match prev, cur with
  | Some a, Some b => Some (sub b a)
  | _, _ => None
  end.

Fixpoint diff_from (prev : option num) (s : series) : series :=
  match s with
  | [] => []
  | x :: s' => delta prev x :: diff_from x s'
  end.

(** [Series.diff()]: each value minus the one before; the first has none
    before it and is missing. *)
Definition diff (s : series) : series :=
  match s with
  | [] => []
  | x :: s' => None :: diff_from x s'
  end.

(** [a.fillna(b)] for two columns on the same rows: every missing place of
    [a] takes the value [b] has in that place. *)
Fixpoint fillna (a b : series) : series :=
  match a, b with
  | [], _ => []
  | x :: a', [] => x :: a'
  | None :: a', y :: b' => y :: fillna a' b'
  | Some x :: a', _ :: b' => Some x :: fillna a' b'
  end.

(** The value [diff().fillna(raw)] leaves in a place whose predecessor is
    [x] and whose raw value is [y]: the difference when both are present,
    else the raw value. *)
Definition filled_delta (x y : option num) : option num :=
  match delta x y with
  | Some d => Some d
  | None => y
  end.

(** [NaN > 100] is false, so a column without any reading is kept. *)
Definition cumulative (s : series) : bool :=
  match series_max s with
  | Some m => gtb m hundred
  | None => false
  end.

Definition avgTemp_daily (s : series) : series :=
  if cumulative s then fillna (diff s) s else s.

(** The spec's wording, for comparison with [avgTemp_daily]: the first
    differences, the first of them replaced by the first raw value. *)
Definition first_differences_spec (s : series) : series :=
  match s with
  | [] => []
  | x :: s' => x :: diff_from x s'
  end.

Definition normalize_spec (s : series) : series :=
  if cumulative s then first_differences_spec s else s.

Definition no_missing (s : series) : Prop := Forall (fun x => x <> None) s.

End Temperature.

(** ** The script: store, rendered elements, control *)

Module Script.

(** The objects the script holds references to. *)
Inductive obj :=
| Frame (d : DataFrame)
| Grouped (g : Aggregated).

Abbreviation ref := nat.

(** What Streamlit has been asked to render.  Long texts are abridged to
    their opening words. *)
Inductive element :=
| Title (text : string)
| SidebarTitle (text : string)
| Selectbox (label : string)
| Markdown (text : string)
| Header (text : string)
| WriteText (text : string)
| Image (file : string)
| Html (file : string)
| Warning (text : string)
| Error (text : string)
| Multiselect (label : string) (options default : list cell)
| Metric (label : string) (value : Z)
| LineChart (x y_left y_right : list cell)
| BarChart (x : list pystr) (y : list Z) (customdata : list pystr).

Inductive exn :=
| KeyError (name : pystr)
| UndefinedVariableError (name : pystr)
| TypeError
| AttributeError
| OSError (file : string).

(** How a statement ends: normally, by [st.stop()], or by an exception
    nobody catches. *)
Inductive outcome (A : Type) :=
| Ret (a : A)
| Stopped
| Raised (e : exn).
Arguments Ret {A} a.
Arguments Stopped {A}.
Arguments Raised {A} e.

Record world := {
  heap : gmap nat obj;
  screen : list element
}.

Definition script (A : Type) := world -> outcome A * world.

Definition ret {A} (a : A) : script A := fun w => (Ret a, w).

Definition bind {A B} (m : script A) (k : A -> script B) : script B :=
  fun w =>
    match m w with
    | (Ret a, w') => k a w'
    | (Stopped, w') => (Stopped, w')
    | (Raised e, w') => (Raised e, w')
    end.

Notation "x <- m ;; k" := (bind m (fun x => k))
  (at level 100, m at next level, right associativity).
Notation "m ;;; k" := (bind m (fun _ => k))
  (at level 100, right associativity).

Definition raise {A} (e : exn) : script A := fun w => (Raised e, w).

(** [st.stop()] *)
Definition st_stop {A} : script A := fun w => (Stopped, w).

Definition render (e : element) (w : world) : world :=
  {| heap := heap w; screen := screen w ++ [e] |}.

(** Any [st.<element>(...)] call. *)
Definition st (e : element) : script unit := fun w => (Ret tt, render e w).

Definition fresh_ref (w : world) : ref := fresh (dom (heap w)).

Definition put (l : ref) (o : obj) (w : world) : world :=
  {| heap := <[l := o]> (heap w); screen := screen w |}.

Definition alloc (o : obj) (w : world) : world := put (fresh_ref w) o w.

(** A new object gets a reference no live object has. *)
Definition new (o : obj) : script ref :=
  fun w => (Ret (fresh_ref w), alloc o w).

(** Writing through a reference changes the object in place. *)
Definition store (l : ref) (o : obj) : script unit :=
  fun w => (Ret tt, put l o w).

Definition frame_at (l : ref) : script DataFrame :=
  fun w =>
    match heap w !! l with
    | Some (Frame d) => (Ret d, w)
    | _ => (Raised AttributeError, w)
    end.

Definition grouped_at (l : ref) : script Aggregated :=
  fun w =>
    match heap w !! l with
    | Some (Grouped g) => (Ret g, w)
    | _ => (Raised AttributeError, w)
    end.

(** [df[name]] *)
Definition getitem (l : ref) (name : pystr) : script (list cell) :=
  d <- frame_at l ;;
  match getcol name d with
  | Some c => ret c
  | None => raise (KeyError name)
  end.

(** [df[name] = vals], in place. *)
Definition setitem (l : ref) (name : pystr) (vals : list cell) : script unit :=
  d <- frame_at l ;; store l (Frame (setcol name vals d)).

(** [df[name] = v], in place. *)
Definition setitem_scalar (l : ref) (name : pystr) (v : cell) : script unit :=
  d <- frame_at l ;; store l (Frame (setcol_scalar name v d)).

(** [df.query('name == @sel')]: a new frame. *)
Definition df_query (l : ref) (name : pystr) (sel : list cell) : script ref :=
  d <- frame_at l ;;
  match query_isin name sel d with
  | Some d' => new (Frame d')
  | None => raise (UndefinedVariableError name)
  end.

(** [x.copy()]: a new object with the same contents. *)
Definition copy (l : ref) : script ref :=
  fun w =>
    match heap w !! l with
    | Some o => new o w
    | None => (Raised AttributeError, w)
    end.

(** [df.groupby(key, as_index=False).agg({'value': 'sum'})]: a new frame. *)
Definition df_groupby_sum (l : ref) (key : pystr) : script ref :=
  keys <- getitem l key ;;
  vals <- getitem l (py "value") ;;
  new (Grouped {| by_col := key; agg := groupby_sum keys vals; tick_label := None |}).

(** [g.nlargest(n, 'value')]: a new frame. *)
Definition df_nlargest (n : nat) (l : ref) : script ref :=
  g <- grouped_at l ;;
  new (Grouped {| by_col := by_col g; agg := nlargest n (agg g);
                  tick_label := tick_label g |}).

(** [g['tick_label'] = labels], in place. *)
Definition set_tick_label (l : ref) (labels : list pystr) : script unit :=
  g <- grouped_at l ;;
  store l (Grouped {| by_col := by_col g; agg := agg g; tick_label := Some labels |}).

(** [g['value'] = pd.to_numeric(g['value'], errors='coerce').fillna(0)], in
    place: on the integer column this writes back the values it read. *)
Definition set_value_numeric (l : ref) : script unit :=
  g <- grouped_at l ;;
  store l (Grouped {| by_col := by_col g;
                      agg := List.map (fun kv => (fst kv, snd kv)) (agg g);
                      tick_label := tick_label g |}).

(** *** Station column detection (lines 175-179) *)

Definition is_candidate (c : pystr) : bool :=
  (contains (py "start") c && contains (py "station") c)
  || (contains (py "station") c && contains (py "start") c).

Definition is_fallback (c : pystr) : bool :=
  contains (py "station") c || contains (py "name") c.

(** [station_candidates[0]] if there is a candidate, else
    [next((c for c in cols if ...), None)]. *)
Definition station_col (cols : list pystr) : option pystr :=
  match List.filter is_candidate cols with
  | c :: _ => Some c
  | [] => List.find is_fallback cols
  end.

(** *** Messages *)

Definition msg_file_missing : string :=
  "Could not find 'reduced_data_to_plot_7.csv' in working directory."%string.
Definition msg_no_data : string :=
  "No data for the selected season(s). Please choose different season(s)."%string.
Definition msg_no_station : string :=
  "Could not find a station column in the main dataframe (df)."%string.

(** *** Most popular stations page (lines 152-231) *)

(** The names the page binds. *)
Record stations_names := {
  df1 : ref;
  station_col_df : option pystr;
  df_groupby_bar : option ref;
  top20_local : option ref
}.

Definition stations_page (df : ref) (season_filter : list cell)
  : script stations_names :=
  season <- getitem df (py "season") ;;
  st (Multiselect "Select the Season" (unique season) (unique season)) ;;;
  q <- df_query df (py "season") season_filter ;;
  df1 <- copy q ;;
  d1 <- frame_at df1 ;;
  if empty d1 then
    st (Error msg_no_data) ;;;
    ret {| df1 := df1; station_col_df := None;
           df_groupby_bar := None; top20_local := None |}
  else
    rides <- getitem df1 (py "bike_rides_daily") ;;
    st (Metric "Total Bike Rides" (count rides)) ;;;
    setitem_scalar df1 (py "value") (Num 1) ;;;
    d1 <- frame_at df1 ;;
    match station_col (columns d1) with
    | None => st (Error msg_no_station) ;;; st_stop
    | Some c =>
        df_groupby_bar <- df_groupby_sum df1 c ;;
        n <- df_nlargest 20 df_groupby_bar ;;
        top20_local <- copy n ;;
        t <- grouped_at top20_local ;;
        set_tick_label top20_local
          (List.map (fun kv => shorten (astype_str (fst kv)) 28) (agg t)) ;;;
        set_value_numeric top20_local ;;;
        t <- grouped_at top20_local ;;
        st (BarChart (default [] (tick_label t)) (List.map snd (agg t))
                     (List.map (fun kv => astype_str (fst kv)) (agg t))) ;;;
        st (Markdown "This bar chart shows us that Grove St PATH is far and away the most popular station") ;;;
        st (Markdown "After those top 4 there is a sizeable dropoff to number 5") ;;;
        ret {| df1 := df1; station_col_df := Some c;
               df_groupby_bar := Some df_groupby_bar;
               top20_local := Some top20_local |}
    end.

(** *** Weather page (lines 76-149) *)

(** A column as numbers: a text cell makes the comparison with [100] a
    [TypeError]. *)
Fixpoint as_numeric (s : list cell) : option (series (num := Z)) :=
  match s with
  | [] => Some []
  | NaN :: s' => option_map (cons None) (as_numeric s')
  | Num z :: s' => option_map (cons (Some z)) (as_numeric s')
  | Str _ :: _ => None
  end.

Definition of_numeric (s : series (num := Z)) : list cell :=
  List.map (fun x => match x with Some z => Num z | None => NaN end) s.

(** The readings whose differences pandas computes exactly: [diff] works
    in float64, which holds every integer up to [2 ^ 53]. *)
Definition exact_range (t : series (num := Z)) : Prop :=
  Forall (fun x => forall z, x = Some z -> - 2 ^ 52 <= z <= 2 ^ 52) t.

(** Lines 86-90 on a frame: the frame with the daily temperature column,
    the frame itself without an ['avgTemp'] column; [None] is the
    [TypeError] of a text cell.  The differences are those of the integers
    in the cells; they are pandas' within [exact_range]. *)
Definition with_daily (d : DataFrame) : option DataFrame :=
  match getcol (py "avgTemp") d with
  | Some temp =>
      option_map
        (fun t => setcol (py "avgTemp_daily")
                    (of_numeric (avgTemp_daily Z.sub Z.gtb 100 t)) d)
        (as_numeric temp)
  | None => Some d
  end.

(** *** The session: what the run reads from outside *)

Inductive page_choice :=
| IntroPage
| WeatherPage
| StationsPage
| MapPage
| RecommendationsPage.

(** Reading a file: it is not there, it is there and cannot be read, or it
    gives its contents. *)
Inductive file (A : Type) :=
| Missing
| Unreadable
| Contents (a : A).
Arguments Missing {A}.
Arguments Unreadable {A}.
Arguments Contents {A} a.

Record session := {
  page : page_choice;                 (* the sidebar select box *)
  season_filter : list cell;          (* the sidebar multi-select *)
  reduced_data_to_plot_7 : file DataFrame;
  top20 : file DataFrame;
  CitiBike_jpg : file unit;
  recs_page_jpg : file unit;
  CitiBike_Trips_html : file unit
}.

Section Pages.

(** [pd.to_datetime] on a column: [None] when it raises.  The date parser
    is pandas' own and is left open. *)
Variable to_datetime : list cell -> option (list cell).

(** Lines 79-83 on a frame: the dates parsed when there is a ['date']
    column and the parser accepts it, the frame as it is otherwise. *)
Definition with_dates (d : DataFrame) : DataFrame :=
  match getcol (py "date") d with
  | Some dates =>
      match to_datetime dates with
      | Some dates' => setcol (py "date") dates' d
      | None => d
      end
  | None => d
  end.

Definition weather_page (df : ref) : script unit :=
  d <- frame_at df ;;
  (if bool_decide (py "date" ∈ columns d) then
     dates <- getitem df (py "date") ;;
     match to_datetime dates with
     | Some dates' => setitem df (py "date") dates'
     | None => ret tt
     end
   else ret tt) ;;;
  d <- frame_at df ;;
  (if bool_decide (py "avgTemp" ∈ columns d) then
     temp <- getitem df (py "avgTemp") ;;
     match as_numeric temp with
     | Some t =>
         setitem df (py "avgTemp_daily")
           (of_numeric (avgTemp_daily Z.sub Z.gtb 100 t))
     | None => raise TypeError
     end
   else ret tt) ;;;
  x <- getitem df (py "date") ;;
  rides <- getitem df (py "bike_rides_daily") ;;
  temp <- getitem df (py "avgTemp_daily") ;;
  st (LineChart x rides temp) ;;;
  st (Markdown "This chart shows there is a clear correlation between bike trips and the temperature.") ;;;
  st (Markdown "Using this information we can assume a majority of bike shortages occur during this time period.").

Definition intro_page (s : session) : script unit :=
  st (Markdown "#### This dashboard aims to provide helpful insights on the expansion problems CitiBike currently faces.") ;;;
  st (Markdown "Right now, CitiBike runs into a situation where customers complain about bikes not being available at certain times.") ;;;
  st (Markdown "- Most popular stations") ;;;
  st (Markdown "- Weather component and bike usage") ;;;
  st (Markdown "- Interactive map with aggregated bike trips") ;;;
  st (Markdown "- Recommendations") ;;;
  st (Markdown "The dropdown menu on the left 'Aspect Selector' will take you to the different aspects of the analysis our team looked at.") ;;;
  match CitiBike_jpg s with
  | Contents _ => st (Image "CitiBike.jpg")
  | _ => st (Warning "Could not load image 'CitiBike.jpg'")
  end.

Definition map_page (s : session) : script unit :=
  st (WriteText "Interactive map showing aggregated bike trips in New York") ;;;
  match CitiBike_Trips_html s with
  | Contents _ =>
      st (Header "Aggregated Bike Trips in New York") ;;;
      st (Html "CitiBike_Trips.html") ;;;
      st (Markdown "Yes")
  | Missing => st (Error "Map HTML file not found at: CitiBike_Trips.html")
  | Unreadable =>
      st (Error "Error loading map HTML") ;;;
      st (Markdown "We can see that South Waterfront Walkway - Sinatra Dr & 1 St and ending back at the same location is the most popular trip") ;;;
      st (Markdown "Despite the fact that Grove St PATH was far and away the most popular starting station") ;;;
      st (Markdown "Another thing we can see from this map is that basically all of the most popular trips take place in either Jersey City or Hoboken.")
  end.

Definition recommendations_page (s : session) : script unit :=
  st (Header "Conclusions and recommendations") ;;;
  match recs_page_jpg s with
  | Contents _ =>
      st (Image "recs_page.jpg") ;;;
      st (Markdown "This analysis shows that CitiBike should follow these recommendations.") ;;;
      st (Markdown "- Add extra bikes during peak months (May to October) and decrease bikes in colder months to save cost.") ;;;
      st (Markdown "- Add extra bikes in all of the top 20 most popular starting stations but mainly focus on the top 5 especially Grove St PATH.") ;;;
      st (Markdown "- Add extra bikes to stations in the Jersey City and Hoboken areas as those seems to be hotspots for trips.")
  | _ => raise (OSError "recs_page.jpg")
  end.

(** *** The whole run (lines 23-268) *)

(** Lines 42-46: the primary data set; a missing file is reported and ends
    the run. *)
Definition load_primary (s : session) : script ref :=
  match reduced_data_to_plot_7 s with
  | Contents d => new (Frame d)
  | Missing => st (Error msg_file_missing) ;;; st_stop
  | Unreadable => raise (OSError "reduced_data_to_plot_7.csv")
  end.

(** Lines 49-52: the optional precomputed table; any failure leaves
    [top20_csv = None]. *)
Definition load_top20 (s : session) : script (option ref) :=
  match top20 s with
  | Contents d => l <- new (Frame d) ;; ret (Some l)
  | _ => ret None
  end.

(** The select box returns one of its five options, so the last [else] of
    the dispatch is never taken; [set_page_config] renders nothing. *)
Definition main (s : session) : script unit :=
  st (Title "Citi Bike Strategy Dashboard") ;;;
  st (SidebarTitle "Aspect Selector") ;;;
  st (Selectbox "Select an aspect of the analysis") ;;;
  df <- load_primary s ;;
  top20_csv <- load_top20 s ;;
  match page s with
  | IntroPage => intro_page s
  | WeatherPage => weather_page df
  | StationsPage => stations_page df (season_filter s) ;;; ret tt
  | MapPage => map_page s
  | RecommendationsPage => recommendations_page s
  end.

End Pages.

(** The run starts with no object and an empty screen. *)
Definition start : world := {| heap := ∅; screen := [] |}.

Definition is_chart (e : element) : bool :=
  match e with
  | LineChart _ _ _ | BarChart _ _ _ => true
  | _ => false
  end.

Definition is_fatal {A} (o : outcome A) : bool :=
  match o with
  | Ret _ => false
  | _ => true
  end.

(** The labels under the bars: the station as text, shortened to 28. *)
Definition tick_labels (g : list (cell * Z)) : list pystr :=
  List.map (fun kv => shorten (astype_str (fst kv)) 28) g.

(** What the page has rendered once the chart is up. *)
Definition stations_screen (season rides : list cell) (top : list (cell * Z))
  : list element :=
  [ Multiselect "Select the Season" (unique season) (unique season);
    Metric "Total Bike Rides" (count rides);
    BarChart (tick_labels top) (List.map snd top)
             (List.map (fun kv => astype_str (fst kv)) top);
    Markdown "This bar chart shows us that Grove St PATH is far and away the most popular station";
    Markdown "After those top 4 there is a sizeable dropoff to number 5" ].

(** *** Frame conditions *)

(** The objects of [h0] are where they were, unchanged. *)
Definition preserved (h0 : gmap nat obj) (w : world) : Prop :=
  forall l o, h0 !! l = Some o -> heap w !! l = Some o.

(** A reference [h0] does not use. *)
Definition unused (h0 : gmap nat obj) (l : ref) : Prop := h0 !! l = None.

(** [m] leaves the objects of [h0] alone, however it ends, and what it
    returns satisfies [post]. *)
Definition keeps {A} (h0 : gmap nat obj) (m : script A) (post : A -> Prop) : Prop :=
  forall w, preserved h0 w ->
    preserved h0 (snd (m w)) /\ forall a, fst (m w) = Ret a -> post a.

Definition anything {A} : A -> Prop := fun _ => True.

(** The frames the stations page binds are objects of its own: none of them
    is an object of [h0]. *)
Definition own_frames (h0 : gmap nat obj) (names : stations_names) : Prop :=
  unused h0 (df1 names)
  /\ (forall l, df_groupby_bar names = Some l -> unused h0 l)
  /\ (forall l, top20_local names = Some l -> unused h0 l).

End Script.

Import Script.

(** ** Sample tables *)

Module Sample.

Definition header : list pystr :=
  [py "date"; py "season"; py "start_station_name"; py "bike_rides_daily";
   py "avgTemp"].

Definition trip (season station : string) : list cell :=
  [Str (py "2022-07-01"); Str (py season); Str (py station); Num 1200; Num 24].

(** A trip whose station name is blank in the CSV. *)
Definition unnamed_trip (season : string) : list cell :=
  [Str (py "2022-07-01"); Str (py season); NaN; Num 1200; Num 24].

(** Stations A, B and C with 10, 25 and 5 summer trips. *)
Definition trips : DataFrame :=
  {| columns := header;
     rows := repeat (trip "Summer" "A") 10 ++ repeat (trip "Summer" "B") 25
             ++ repeat (trip "Summer" "C") 5 |}.

Definition trips_unnamed : DataFrame :=
  {| columns := header;
     rows := [trip "Summer" "A"; unnamed_trip "Summer"] |}.

(** The same trips under a header without any station column. *)
Definition trips_no_station : DataFrame :=
  {| columns := [py "date"; py "season"; py "bike_rides_daily"];
     rows := [[Str (py "2022-07-01"); Str (py "Summer"); Num 1200]] |}.

(** A session state holding the loaded table under reference [0]. *)
Definition loaded (d : DataFrame) : world :=
  {| heap := {[ 0%nat := Frame d ]}; screen := [] |}.

Definition session_without_file (p : page_choice) : session :=
  {| page := p; season_filter := [Str (py "Summer")];
     reduced_data_to_plot_7 := Missing; top20 := Missing;
     CitiBike_jpg := Contents tt; recs_page_jpg := Contents tt;
     CitiBike_Trips_html := Contents tt |}.

End Sample.

(** * Properties *)

(** ** The label formatter *)

Section ShortenFacts.

Implicit Types (s t : pystr) (n k : Z) (c : N).

Lemma rstrip_length s : (List.length (rstrip s) <= List.length s)%nat.
Proof.
  induction s as [|c s IH]; simpl; [lia|].
  destruct (rstrip s) as [|c' r]; [destruct (isspace c)|]; simpl in *; lia.
Qed.

Lemma rstrip_cons_nonempty c s :
  rstrip s <> [] -> rstrip (c :: s) = c :: rstrip s.
Proof. simpl. destruct (rstrip s); congruence. Qed.

Lemma rstrip_idem s : rstrip (rstrip s) = rstrip s.
Proof.
  induction s as [|c s IH]; [reflexivity|].
  simpl. destruct (rstrip s) as [|c' r] eqn:E.
  - destruct (isspace c) eqn:Ec; simpl; [reflexivity|]. now rewrite Ec.
  - rewrite rstrip_cons_nonempty by (rewrite IH; discriminate).
    now rewrite IH.
Qed.

Lemma slice_to_nonneg s k : 0 <= k -> slice_to s k = firstn (Z.to_nat k) s.
Proof. intros H. unfold slice_to. destruct (Z.ltb_spec k 0); [lia|reflexivity]. Qed.

Lemma slice_to_neg s k :
  k < 0 -> slice_to s k = firstn (Z.to_nat (len s + k)) s.
Proof. intros H. unfold slice_to. destruct (Z.ltb_spec k 0); [reflexivity|lia]. Qed.

Lemma shorten_within s n : len s <= n -> shorten s n = s.
Proof. intros H. unfold shorten. destruct (Z.leb_spec (len s) n); [reflexivity|lia]. Qed.

Lemma shorten_beyond s n :
  n < len s -> shorten s n = rstrip (slice_to s (n - 1)) ++ [ellipsis].
Proof. intros H. unfold shorten. destruct (Z.leb_spec (len s) n); [lia|reflexivity]. Qed.

Lemma len_app_ellipsis t : len (t ++ [ellipsis]) = len t + 1.
Proof. unfold len. rewrite List.length_app. simpl. lia. Qed.

Lemma len_rstrip_firstn s m : len (rstrip (firstn m s)) <= Z.of_nat m.
Proof.
  unfold len. pose proof (rstrip_length (firstn m s)) as H.
  pose proof (List.firstn_le_length m s). lia.
Qed.

Lemma firstn_all_but_last t c :
  firstn (Z.to_nat (len (t ++ [c]) + -1)) (t ++ [c]) = t.
Proof.
  unfold len. rewrite List.length_app. simpl.
  replace (Z.to_nat (Z.of_nat (List.length t + 1) + -1)) with (List.length t + 0)%nat by lia.
  rewrite List.firstn_app_2. simpl. apply List.app_nil_r.
Qed.

Lemma shorten_len_bound s (n : Z) : 1 <= n -> len (shorten s n) <= n.
Proof.
  intros Hn. destruct (Z.leb_spec (len s) n) as [H|H].
  - now rewrite shorten_within.
  - rewrite shorten_beyond, slice_to_nonneg, len_app_ellipsis by lia.
    pose proof (len_rstrip_firstn s (Z.to_nat (n - 1))). lia.
Qed.

End ShortenFacts.

(** C3: a name within the length is returned unchanged, the empty name in
    particular; a longer name becomes its first [n - 1] characters, trailing
    white space trimmed, followed by one ellipsis.  A maximum display length
    is at least one: the script passes 28. *)
Theorem shorten_contract (s : pystr) (n : Z) :
  (len s <= n -> shorten s n = s)
  /\ (0 <= n -> shorten [] n = [])
  /\ (1 <= n -> n < len s ->
      shorten s n = rstrip (firstn (Z.to_nat (n - 1)) s) ++ [ellipsis]).
Proof.
  repeat split.
  - apply shorten_within.
  - intros H. apply shorten_within. unfold len. simpl. lia.
  - intros H1 H2. rewrite shorten_beyond by assumption.
    now rewrite slice_to_nonneg by lia.
Qed.

Lemma shorten_contract_witness :
  shorten (py "South Waterfront Walkway - Sinatra Dr & 1 St") 28
  = rstrip (firstn (Z.to_nat (28 - 1))
              (py "South Waterfront Walkway - Sinatra Dr & 1 St")) ++ [ellipsis].
Proof.
  apply (proj2 (proj2
           (shorten_contract (py "South Waterfront Walkway - Sinatra Dr & 1 St") 28))).
  - lia.
  - reflexivity.
Defined.

(** C10: for a maximum length of at least one the result never exceeds
    it. *)
Theorem shorten_length (s : pystr) (n : Z) :
  1 <= n -> len (shorten s n) <= n.
Proof.
  intros Hn. destruct (Z.leb_spec (len s) n) as [H|H].
  - now rewrite shorten_within.
  - rewrite shorten_beyond, slice_to_nonneg by lia.
    rewrite len_app_ellipsis.
    pose proof (len_rstrip_firstn s (Z.to_nat (n - 1))). lia.
Qed.

Lemma shorten_length_witness :
  len (shorten (py "Hoboken Terminal - River St & Hudson Pl") 28) <= 28.
Proof. apply shorten_length. lia. Defined.

(** C8: the formatter is idempotent.  A name within the length is returned
    unchanged; so is any output that ends in the ellipsis and is within the
    length; and for every [n >= 0] every output is a fixed point. *)
Theorem shorten_idempotent (s : pystr) (n : Z) :
  (len s <= n -> shorten s n = s)
  /\ (endswith_ellipsis (shorten s n) -> len (shorten s n) <= n ->
      shorten (shorten s n) n = shorten s n)
  /\ (1 <= n -> n < len s ->
      endswith_ellipsis (shorten s n) /\ len (shorten s n) <= n)
  /\ (0 <= n -> shorten (shorten s n) n = shorten s n).
Proof.
  repeat split.
  - apply shorten_within.
  - intros _ H. now apply shorten_within.
  - rewrite shorten_beyond by assumption. now eexists.
  - now apply shorten_len_bound.
  - intros Hn. destruct (Z.leb_spec (len s) n) as [H|H].
    + rewrite (shorten_within s n H). exact (shorten_within s n H).
    + destruct (Z.eq_dec n 0) as [->|Hne].
      * rewrite (shorten_beyond s) by assumption.
        set (t := rstrip (slice_to s (0 - 1))).
        rewrite shorten_beyond by (rewrite len_app_ellipsis; unfold len; lia).
        rewrite slice_to_neg by lia.
        change (0 - 1) with (-1). rewrite firstn_all_but_last.
        unfold t. now rewrite rstrip_idem.
      * apply shorten_within, shorten_len_bound. lia.
Qed.

Lemma shorten_idempotent_witness :
  shorten (shorten (py "Hoboken Terminal - Hudson St & Hudson Pl") 28) 28
  = shorten (py "Hoboken Terminal - Hudson St & Hudson Pl") 28.
Proof.
  apply (proj2 (proj2 (proj2
           (shorten_idempotent (py "Hoboken Terminal - Hudson St & Hudson Pl") 28)))).
  lia.
Defined.

(** ** Temperature normalization *)

Section TemperatureFacts.

Context {num : Type}.
Variable sub : num -> num -> num.
Variable gtb : num -> num -> bool.
Variable hundred : num.

#[local] Abbreviation daily := (avgTemp_daily sub gtb hundred).
Implicit Types (s : series (num := num)) (p x y : option num).

Lemma fillna_diff_from_length s p :
  List.length (fillna (diff_from sub p s) s) = List.length s.
Proof.
  revert p. induction s as [|x s IH]; intros p; [reflexivity|].
  simpl. destruct (delta sub p x); simpl; now rewrite IH.
Qed.

Lemma fillna_diff_from_lookup s p (i : nat) x y :
  (p :: s) !! i = Some x -> s !! i = Some y ->
  fillna (diff_from sub p s) s !! i = Some (filled_delta sub x y).
Proof.
  revert p i. induction s as [|z s IH]; intros p i Hx Hy; [discriminate|].
  destruct i as [|i]; simpl in *.
  - injection Hx as <-. injection Hy as <-. unfold filled_delta.
    now destruct (delta sub p z).
  - destruct (delta sub p z); simpl; now apply IH.
Qed.

Lemma fillna_diff_from_present s a :
  no_missing s ->
  fillna (diff_from sub (Some a) s) s = diff_from sub (Some a) s.
Proof.
  revert a. induction s as [|x s IH]; intros a H; [reflexivity|].
  inversion H as [|? ? Hx Hs]; subst.
  destruct x as [b|]; [|congruence]. simpl. f_equal. now apply IH.
Qed.

Lemma daily_cumulative s :
  cumulative gtb hundred s = true -> daily s = fillna (diff sub s) s.
Proof. intros H. unfold avgTemp_daily. now rewrite H. Qed.

Lemma daily_not_cumulative s :
  cumulative gtb hundred s = false -> daily s = s.
Proof. intros H. unfold avgTemp_daily. now rewrite H. Qed.

End TemperatureFacts.

(** C4 (as the code has it): a column whose maximum is at most 100, or that
    has no reading at all, is kept as it is.  When the maximum exceeds 100
    the result has the same length, its first value is the first raw value,
    and every later place holds the difference with the place before when
    both readings are present and the raw value of the place otherwise; on
    a column without missing readings this is the first differences with
    the first one replaced by the first raw value. *)
Theorem avgTemp_daily_contract {num : Type} (sub : num -> num -> num)
    (gtb : num -> num -> bool) (hundred : num) (s : series (num := num)) :
  (forall m, series_max gtb s = Some m -> gtb m hundred = false ->
     avgTemp_daily sub gtb hundred s = s)
  /\ (series_max gtb s = None -> avgTemp_daily sub gtb hundred s = s)
  /\ (forall m, series_max gtb s = Some m -> gtb m hundred = true ->
        List.length (avgTemp_daily sub gtb hundred s) = List.length s
        /\ avgTemp_daily sub gtb hundred s !! O = s !! O
        /\ (forall (i : nat) x y, s !! i = Some x -> s !! S i = Some y ->
              avgTemp_daily sub gtb hundred s !! S i
              = Some (filled_delta sub x y))
        /\ (no_missing s ->
              avgTemp_daily sub gtb hundred s = first_differences_spec sub s)).
Proof.
  split; [|split].
  - intros m Hm Hg. apply daily_not_cumulative. unfold cumulative. now rewrite Hm.
  - intros Hm. apply daily_not_cumulative. unfold cumulative. now rewrite Hm.
  - intros m Hm Hg.
    assert (Hc : cumulative gtb hundred s = true)
      by (unfold cumulative; now rewrite Hm).
    rewrite (daily_cumulative sub gtb hundred s Hc).
    destruct s as [|x0 s]; [discriminate|]. simpl.
    repeat split.
    + now rewrite fillna_diff_from_length.
    + intros i x y Hx Hy. now apply fillna_diff_from_lookup.
    + intros H. inversion H as [|? ? Hx Hs]; subst.
      destruct x0 as [a|]; [|congruence].
      f_equal. now apply fillna_diff_from_present.
Qed.

Lemma avgTemp_daily_contract_witness :
  avgTemp_daily Z.sub Z.gtb 100 [Some 120; Some 150; Some 210]
  = first_differences_spec Z.sub [Some 120; Some 150; Some 210].
Proof.
  refine (proj2 (proj2 (proj2 (proj2 (proj2
    (avgTemp_daily_contract Z.sub Z.gtb 100 [Some 120; Some 150; Some 210]))
    210 _ _))) _).
  - reflexivity.
  - reflexivity.
  - repeat constructor; discriminate.
Defined.

(** C4 as stated fails on a cumulative column with a missing reading: after
    the gap the code puts the raw value back, where the first differences
    have nothing. *)
Lemma avgTemp_daily_counterexample :
  series_max Z.gtb [Some 200; None; Some 300] = Some 300
  /\ avgTemp_daily Z.sub Z.gtb 100 [Some 200; None; Some 300]
     = [Some 200; None; Some 300]
  /\ normalize_spec Z.sub Z.gtb 100 [Some 200; None; Some 300]
     = [Some 200; None; None]
  /\ avgTemp_daily Z.sub Z.gtb 100 [Some 200; None; Some 300]
     <> normalize_spec Z.sub Z.gtb 100 [Some 200; None; Some 300].
Proof. repeat split. discriminate. Qed.

(** ** Grouping and ranking *)

Section SortFacts.

Context {A : Type} (before : A -> A -> bool).

Lemma insert_by_perm (x : A) (l : list A) :
  Permutation (insert_by before x l) (x :: l).
Proof.
  induction l as [|y l IH]; simpl; [reflexivity|].
  destruct (before x y); [reflexivity|].
  rewrite IH. apply perm_swap.
Qed.

Lemma sort_by_perm (l : list A) : Permutation (sort_by before l) l.
Proof.
  induction l as [|x l IH]; simpl; [reflexivity|].
  rewrite insert_by_perm. now constructor.
Qed.

Lemma sort_by_length (l : list A) :
  List.length (sort_by before l) = List.length l.
Proof. apply Permutation_length, sort_by_perm. Qed.

Hypothesis before_total : forall x y, before x y = false -> before y x = true.
Hypothesis before_trans :
  forall x y z, before x y = true -> before y z = true -> before x z = true.

Lemma insert_by_sorted (x : A) (l : list A) :
  StronglySorted (fun a b => before a b = true) l ->
  StronglySorted (fun a b => before a b = true) (insert_by before x l).
Proof.
  induction 1 as [|y l Hs IH Hy]; simpl.
  - repeat constructor.
  - destruct (before x y) eqn:E.
    + constructor; [now constructor|].
      constructor; [assumption|].
      eapply List.Forall_impl; [|exact Hy]. intros z Hz. simpl in Hz. eauto.
    + constructor; [assumption|].
      eapply Permutation_Forall; [symmetry; apply insert_by_perm|].
      constructor; [now apply before_total | assumption].
Qed.

Lemma sort_by_sorted (l : list A) :
  StronglySorted (fun a b => before a b = true) (sort_by before l).
Proof.
  induction l as [|x l IH]; simpl; [constructor|].
  now apply insert_by_sorted.
Qed.

End SortFacts.

Section RankingFacts.

Implicit Types (g : list (cell * Z)) (keys vals : list cell) (k x : cell).

Lemma StronglySorted_firstn {A} (R : A -> A -> Prop) (n : nat) (l : list A) :
  StronglySorted R l -> StronglySorted R (firstn n l).
Proof.
  intros H. revert n. induction H as [|x l Hs IH Hx]; intros [|n]; simpl;
    try constructor; [apply IH|].
  now apply Forall_take.
Qed.

Lemma StronglySorted_weaken {A} (R R' : A -> A -> Prop) (l : list A) :
  (forall a b, R a b -> R' a b) -> StronglySorted R l -> StronglySorted R' l.
Proof.
  intros HR. induction 1 as [|x l Hs IH Hx]; constructor; [assumption|].
  eapply List.Forall_impl; [|exact Hx]. auto.
Qed.

Lemma nlargest_length n g : (List.length (nlargest n g) <= n)%nat.
Proof. unfold nlargest. apply List.firstn_le_length. Qed.

Lemma nlargest_sorted n g : StronglySorted by_value_desc (nlargest n g).
Proof.
  unfold nlargest. apply StronglySorted_firstn.
  eapply StronglySorted_weaken; [|apply sort_by_sorted].
  - intros a b H. unfold by_value_desc. simpl in H. lia.
  - intros a b H. simpl in *. lia.
  - intros a b c H1 H2. simpl in *. lia.
Qed.

(** The rows [nlargest] returns are rows of the grouped frame. *)
Lemma nlargest_incl n g (kv : cell * Z) : In kv (nlargest n g) -> In kv g.
Proof.
  unfold nlargest. intros H.
  eapply Permutation_in; [apply sort_by_perm|].
  rewrite <- (List.firstn_skipn n) at 1. apply List.in_or_app. left. exact H.
Qed.

(** With fewer than [n] groups nothing is dropped. *)
Lemma nlargest_all n g :
  (List.length g <= n)%nat -> Permutation (nlargest n g) g.
Proof.
  intros H. unfold nlargest.
  rewrite List.firstn_all2 by (now rewrite sort_by_length).
  apply sort_by_perm.
Qed.

End RankingFacts.

Section GroupFacts.

Implicit Types (g : list (cell * Z)) (keys vals ks xs : list cell) (k x : cell).

#[local] Abbreviation occ xs k := (count_occ cell_eq_dec xs k).

Lemma unique_In x xs : In x (unique xs) <-> In x xs.
Proof.
  induction xs as [|y xs IH]; simpl; [tauto|].
  rewrite List.filter_In, IH.
  destruct (decide (x = y)) as [->|Hne].
  - tauto.
  - rewrite bool_decide_eq_false_2 by assumption. simpl. tauto.
Qed.

Lemma unique_NoDup xs : List.NoDup (unique xs).
Proof.
  induction xs as [|y xs IH]; simpl; constructor.
  - rewrite List.filter_In. intros [_ H].
    rewrite bool_decide_eq_true_2 in H by reflexivity. discriminate.
  - now apply List.NoDup_filter.
Qed.

Lemma group_vals_ones k keys :
  group_vals k keys (repeat (Num 1) (List.length keys))
  = repeat (Num 1) (occ keys k).
Proof.
  induction keys as [|k' keys IH]; simpl; [reflexivity|].
  destruct (decide (k' = k)); destruct (cell_eq_dec k' k); try contradiction;
    simpl; now rewrite IH.
Qed.

Lemma sum_cells_ones (n : nat) : sum_cells (repeat (Num 1) n) = Z.of_nat n.
Proof.
  induction n as [|n IH]; [reflexivity|].
  change (sum_cells (repeat (Num 1) (S n)))
    with (1 + sum_cells (repeat (Num 1) n)).
  lia.
Qed.

Lemma sum_values_perm g g' : Permutation g g' -> sum_values g = sum_values g'.
Proof. induction 1; simpl; lia. Qed.

Lemma sum_values_app g g' : sum_values (g ++ g') = sum_values g + sum_values g'.
Proof. induction g as [|kv g IH]; simpl; lia. Qed.

(** Summing the occurrences of distinct keys counts the elements that are
    one of the keys. *)
Lemma sum_occ_NoDup ks xs :
  List.NoDup ks ->
  sum_values (List.map (fun k => (k, Z.of_nat (occ xs k))) ks)
  = Z.of_nat (List.length (List.filter (fun x => bool_decide (x ∈ ks)) xs)).
Proof.
  intros Hnd. induction Hnd as [|k ks Hk Hnd IH]; simpl.
  - induction xs as [|x xs IHx]; simpl; [reflexivity|].
    exact IHx.
  - rewrite IH. clear IH. rewrite <- list_elem_of_In in Hk.
    induction xs as [|x xs IHx]; simpl; [reflexivity|].
    destruct (cell_eq_dec x k) as [->|Hne].
    + rewrite (bool_decide_eq_true_2 (k ∈ k :: ks)) by apply list_elem_of_here.
      rewrite (bool_decide_eq_false_2 (k ∈ ks)) by assumption.
      simpl List.length. lia.
    + destruct (decide (x ∈ ks)) as [Hin|Hin].
      * rewrite (bool_decide_eq_true_2 (x ∈ k :: ks))
          by (now apply list_elem_of_further).
        rewrite (bool_decide_eq_true_2 (x ∈ ks)) by assumption.
        simpl List.length. lia.
      * rewrite (bool_decide_eq_false_2 (x ∈ k :: ks))
          by (rewrite elem_of_cons; intros [?|?]; congruence).
        rewrite (bool_decide_eq_false_2 (x ∈ ks)) by assumption.
        exact IHx.
Qed.

(** The group keys: the present values of the key column, each once. *)
Lemma group_keys_In k keys :
  In k (sort_by cell_leb (unique (List.filter notna keys)))
  <-> In k keys /\ notna k = true.
Proof.
  split; intros H.
  - apply (Permutation_in _ (sort_by_perm _ _)) in H.
    apply (proj1 (unique_In _ _)) in H. now apply List.filter_In in H.
  - eapply Permutation_in; [symmetry; apply sort_by_perm|].
    apply (proj2 (unique_In _ _)). now apply List.filter_In.
Qed.

Lemma group_keys_NoDup keys :
  List.NoDup (sort_by cell_leb (unique (List.filter notna keys))).
Proof.
  eapply Permutation_NoDup; [symmetry; apply sort_by_perm|apply unique_NoDup].
Qed.

(** Every aggregate pairs a present key with the number of rows that carry
    it. *)
Lemma groupby_sum_In k (n : Z) keys :
  In (k, n) (groupby_sum keys (repeat (Num 1) (List.length keys)))
  <-> In k keys /\ notna k = true /\ n = Z.of_nat (occ keys k).
Proof.
  unfold groupby_sum. rewrite List.in_map_iff. split.
  - intros (k' & Heq & Hin). injection Heq as -> <-.
    apply group_keys_In in Hin as [H1 H2].
    now rewrite group_vals_ones, sum_cells_ones.
  - intros (H1 & H2 & ->). exists k. split.
    + now rewrite group_vals_ones, sum_cells_ones.
    + now apply group_keys_In.
Qed.

Lemma groupby_sum_keys_NoDup keys vals :
  List.NoDup (List.map fst (groupby_sum keys vals)).
Proof.
  unfold groupby_sum. rewrite List.map_map. simpl. rewrite List.map_id.
  apply group_keys_NoDup.
Qed.

(** The counts of the groups add up to the rows whose key is present. *)
Lemma groupby_sum_total keys :
  sum_values (groupby_sum keys (repeat (Num 1) (List.length keys)))
  = count keys.
Proof.
  unfold groupby_sum, count.
  erewrite List.map_ext
    by (intros k; now rewrite group_vals_ones, sum_cells_ones).
  rewrite (sum_occ_NoDup _ keys (group_keys_NoDup keys)).
  do 2 f_equal. apply List.filter_ext_in. intros x Hx.
  destruct (notna x) eqn:E.
  - apply bool_decide_eq_true_2. rewrite list_elem_of_In. now apply group_keys_In.
  - apply bool_decide_eq_false_2. rewrite list_elem_of_In, group_keys_In.
    intros [_ H]. congruence.
Qed.

Lemma count_all_present keys :
  Forall (fun k => notna k = true) keys -> count keys = Z.of_nat (List.length keys).
Proof.
  intros H. unfold count. f_equal. f_equal.
  induction H as [|k keys Hk H IH]; simpl; [reflexivity|].
  rewrite Hk. now f_equal.
Qed.

End GroupFacts.

(** ** Columns of a frame *)

Section FrameFacts.

Implicit Types (d : DataFrame) (name c : pystr) (cols : list pystr)
  (r vals : list cell) (rs : list (list cell)) (v : cell) (i j : nat).

Lemma index_of_In name cols :
  In name cols -> exists i, index_of name cols = Some i.
Proof.
  induction cols as [|c cols IH]; simpl; [tauto|].
  intros H. destruct (decide (c = name)) as [|Hne]; [eauto|].
  destruct H as [H|H]; [contradiction|].
  destruct (IH H) as [i ->]. simpl. eauto.
Qed.

Lemma index_of_None name cols : index_of name cols = None -> ~ In name cols.
Proof.
  intros H Hin. destruct (index_of_In _ _ Hin) as [i Hi]. congruence.
Qed.

Lemma index_of_Some_In name cols i : index_of name cols = Some i -> In name cols.
Proof.
  revert i. induction cols as [|c cols IH]; simpl; intros i H; [discriminate|].
  destruct (decide (c = name)); [now left|].
  destruct (index_of name cols); [|discriminate]. right. eauto.
Qed.

Lemma index_of_app_old name cols cols' i :
  index_of name cols = Some i -> index_of name (cols ++ cols') = Some i.
Proof.
  revert i. induction cols as [|c cols IH]; simpl; intros i H; [discriminate|].
  destruct (decide (c = name)); [assumption|].
  destruct (index_of name cols) as [k|]; [|discriminate].
  now rewrite (IH k eq_refl).
Qed.

Lemma index_of_app_new name cols :
  index_of name cols = None ->
  index_of name (cols ++ [name]) = Some (List.length cols).
Proof.
  induction cols as [|c cols IH]; simpl; intros H.
  - destruct (decide (name = name)); [reflexivity|contradiction].
  - destruct (decide (c = name)); [discriminate|].
    destruct (index_of name cols); [discriminate|].
    now rewrite IH.
Qed.

Lemma index_of_app_other name name' cols :
  name' <> name -> index_of name' (cols ++ [name]) = index_of name' cols.
Proof.
  intros Hne. induction cols as [|c cols IH]; simpl.
  - destruct (decide (name = name')); [congruence|reflexivity].
  - destruct (decide (c = name')); [reflexivity|]. now rewrite IH.
Qed.

Lemma index_of_inj name name' cols i :
  index_of name cols = Some i -> index_of name' cols = Some i -> name = name'.
Proof.
  revert i. induction cols as [|c cols IH]; simpl; intros i H H'; [discriminate|].
  destruct (decide (c = name)), (decide (c = name')); try congruence.
  - destruct (index_of name' cols); simpl in H'; congruence.
  - destruct (index_of name cols); simpl in H; congruence.
  - destruct (index_of name cols) as [k|], (index_of name' cols) as [k'|];
      simpl in *; try discriminate.
    apply (IH k); congruence.
Qed.

Lemma cell_at_set_at_eq i v r : cell_at i (set_at i v r) = v.
Proof.
  unfold cell_at. revert r. induction i as [|i IH]; intros [|x r]; simpl; auto.
Qed.

Lemma cell_at_nil j : cell_at j [] = NaN.
Proof. unfold cell_at. now destruct j. Qed.

Lemma cell_at_set_at_ne i j v r : i <> j -> cell_at j (set_at i v r) = cell_at j r.
Proof.
  revert j r. induction i as [|i IH]; intros [|j] [|x r] H; simpl;
    try contradiction; try reflexivity.
  - now destruct j.
  - change (cell_at j (set_at i v []) = NaN).
    rewrite IH by congruence. apply cell_at_nil.
  - apply (IH j r). congruence.
Qed.

Lemma set_rows_length i vals rs :
  List.length (set_rows i vals rs) = List.length rs.
Proof.
  revert vals. induction rs as [|r rs IH]; intros [|v vals]; simpl; auto.
Qed.

Lemma set_rows_read i vals rs :
  List.length vals = List.length rs ->
  List.map (cell_at i) (set_rows i vals rs) = vals.
Proof.
  revert vals. induction rs as [|r rs IH]; intros [|v vals] H; simpl in *;
    try discriminate; [reflexivity|].
  rewrite cell_at_set_at_eq. f_equal. apply IH. congruence.
Qed.

Lemma set_rows_read_other i j vals rs :
  i <> j ->
  List.map (cell_at j) (set_rows i vals rs) = List.map (cell_at j) rs.
Proof.
  intros H. revert vals. induction rs as [|r rs IH]; intros [|v vals]; simpl;
    try reflexivity; rewrite cell_at_set_at_ne by assumption; now rewrite IH.
Qed.

Lemma setcol_rows_length name vals d :
  List.length (rows (setcol name vals d)) = List.length (rows d).
Proof. unfold setcol. destruct (index_of name (columns d)); apply set_rows_length. Qed.

Lemma getcol_setcol name vals d :
  List.length vals = List.length (rows d) ->
  getcol name (setcol name vals d) = Some vals.
Proof.
  intros H. unfold getcol, setcol.
  destruct (index_of name (columns d)) as [i|] eqn:E; simpl.
  - rewrite E. simpl. now rewrite set_rows_read.
  - rewrite index_of_app_new by assumption. simpl. now rewrite set_rows_read.
Qed.

Lemma getcol_setcol_other name name' vals d :
  name' <> name -> getcol name' (setcol name vals d) = getcol name' d.
Proof.
  intros Hne. unfold getcol, setcol.
  destruct (index_of name (columns d)) as [i|] eqn:E; simpl.
  - destruct (index_of name' (columns d)) as [j|] eqn:E'; simpl; [|reflexivity].
    rewrite set_rows_read_other; [reflexivity|].
    intros ->. apply Hne. symmetry. eapply index_of_inj; eassumption.
  - rewrite index_of_app_other by assumption.
    destruct (index_of name' (columns d)) as [j|] eqn:E'; simpl; [|reflexivity].
    rewrite set_rows_read_other; [reflexivity|].
    intros Hj. subst j.
    assert (Hlt : (List.length (columns d) < List.length (columns d))%nat); [|lia].
    clear -E'. revert E'. generalize (List.length (columns d)) at 1 2.
    induction (columns d) as [|c cols IH]; simpl; intros n H; [discriminate|].
    destruct (decide (c = name')); [injection H as <-; lia|].
    destruct (index_of name' cols) as [k|]; [|discriminate].
    injection H as <-. specialize (IH k eq_refl). lia.
Qed.

Lemma getcol_In name d col : getcol name d = Some col -> In name (columns d).
Proof.
  unfold getcol. destruct (index_of name (columns d)) eqn:E; [|discriminate].
  intros _. eapply index_of_Some_In; eassumption.
Qed.

Lemma getcol_length name d col :
  getcol name d = Some col -> List.length col = List.length (rows d).
Proof.
  unfold getcol. destruct (index_of name (columns d)); [|discriminate].
  simpl. intros [= <-]. apply List.length_map.
Qed.

Lemma In_getcol name d : In name (columns d) -> exists col, getcol name d = Some col.
Proof.
  intros H. destruct (index_of_In _ _ H) as [i Hi].
  unfold getcol. rewrite Hi. simpl. eauto.
Qed.

(** The filtered frame keeps the header, and its rows are the rows of the
    source whose cell is in the selection. *)
Lemma query_isin_columns name sel d dq :
  query_isin name sel d = Some dq -> columns dq = columns d.
Proof.
  unfold query_isin. destruct (index_of name (columns d)); [|discriminate].
  now intros [= <-].
Qed.

Lemma query_isin_getcol name sel d dq :
  query_isin name sel d = Some dq -> exists col, getcol name d = Some col.
Proof.
  unfold query_isin, getcol. destruct (index_of name (columns d)); [|discriminate].
  simpl. eauto.
Qed.

Lemma getcol_query_isin name sel d col :
  getcol name d = Some col -> exists dq, query_isin name sel d = Some dq.
Proof.
  unfold query_isin, getcol. destruct (index_of name (columns d)); [|discriminate].
  simpl. eauto.
Qed.

Lemma query_isin_empty_selection name d dq :
  query_isin name [] d = Some dq -> rows dq = [].
Proof.
  unfold query_isin. destruct (index_of name (columns d)); [|discriminate].
  intros [= <-]. simpl. induction (rows d) as [|r rs IH]; [reflexivity|].
  simpl. exact IH.
Qed.

Lemma query_isin_not_empty name sel d dq :
  query_isin name sel d = Some dq -> rows dq <> [] -> empty dq = false.
Proof.
  intros Hq Hr. unfold empty.
  destruct (query_isin_getcol _ _ _ _ Hq) as [col Hc].
  apply getcol_In in Hc. rewrite (query_isin_columns _ _ _ _ Hq).
  destruct (columns d); [contradiction|]. destruct (rows dq); [congruence|].
  reflexivity.
Qed.

Lemma query_isin_is_empty name sel d dq :
  query_isin name sel d = Some dq -> rows dq = [] -> empty dq = true.
Proof.
  intros _ Hr. unfold empty. rewrite Hr. apply orb_true_r.
Qed.

End FrameFacts.

(** ** Station column detection *)

Section DetectionFacts.

Implicit Types (c needle hay : pystr) (cols : list pystr).

Lemma startswith_spec hay needle :
  startswith hay needle = true <-> exists post, hay = needle ++ post.
Proof.
  revert hay. induction needle as [|a needle IH]; intros hay; simpl.
  - split; [eauto|]. intros _. now destruct hay.
  - destruct hay as [|b hay]; simpl.
    + split; [discriminate|]. intros [post H]. discriminate.
    + rewrite andb_true_iff, N.eqb_eq, IH. split.
      * intros [-> [post ->]]. eauto.
      * intros [post [= -> ->]]. eauto.
Qed.

(** [needle in hay] holds exactly when [needle] occurs in [hay]. *)
Lemma contains_spec needle hay :
  contains needle hay = true <-> exists pre post, hay = pre ++ needle ++ post.
Proof.
  induction hay as [|b hay IH].
  - change (contains needle []) with (startswith [] needle || false).
    rewrite orb_false_r, startswith_spec. split.
    + intros [post H]. exists [], post. exact H.
    + intros (pre & post & H). symmetry in H.
      apply List.app_eq_nil in H as [-> H]. eauto.
  - change (contains needle (b :: hay))
      with (startswith (b :: hay) needle || contains needle hay).
    rewrite orb_true_iff, startswith_spec, IH. split.
    + intros [[post H]|(pre & post & H)].
      * exists [], post. exact H.
      * exists (b :: pre), post. simpl. now rewrite H.
    + intros (pre & post & H). destruct pre as [|b' pre]; simpl in H.
      * left. eauto.
      * right. injection H as -> ->. eauto.
Qed.

Lemma is_candidate_spec c :
  is_candidate c = true
  <-> contains (py "start") c = true /\ contains (py "station") c = true.
Proof.
  unfold is_candidate.
  destruct (contains (py "start") c), (contains (py "station") c); simpl;
    intuition congruence.
Qed.

Lemma is_fallback_spec c :
  is_fallback c = true
  <-> contains (py "station") c = true \/ contains (py "name") c = true.
Proof. unfold is_fallback. apply orb_true_iff. Qed.

Lemma filter_nil_iff {A} (f : A -> bool) (l : list A) :
  List.filter f l = [] <-> forall x, In x l -> f x = false.
Proof.
  induction l as [|y l IH]; simpl; [tauto|].
  destruct (f y) eqn:E.
  - split; [discriminate|]. intros H. specialize (H y (or_introl eq_refl)). congruence.
  - rewrite IH. split; [intros H x [<-|Hx]; auto | auto].
Qed.

Lemma station_col_candidate cols c rest :
  List.filter is_candidate cols = c :: rest -> station_col cols = Some c.
Proof. unfold station_col. now intros ->. Qed.

Lemma station_col_fallback cols :
  List.filter is_candidate cols = [] -> station_col cols = List.find is_fallback cols.
Proof. unfold station_col. now intros ->. Qed.

Lemma station_col_In cols c :
  station_col cols = Some c ->
  In c cols /\ (is_candidate c = true \/ is_fallback c = true).
Proof.
  unfold station_col. destruct (List.filter is_candidate cols) as [|c' rest] eqn:E.
  - intros H. apply List.find_some in H. tauto.
  - intros [= <-].
    assert (H : In c' (List.filter is_candidate cols)) by (rewrite E; now left).
    apply List.filter_In in H. tauto.
Qed.

(** The indicator column ['value'] is never taken for the station column. *)
Lemma station_col_not_value cols c : station_col cols = Some c -> c <> py "value".
Proof.
  intros H. apply station_col_In in H as [_ H]. intros ->.
  destruct H as [H|H]; vm_compute in H; discriminate.
Qed.

Lemma find_app_miss {A} (f : A -> bool) (l : list A) (x : A) :
  f x = false -> List.find f (l ++ [x]) = List.find f l.
Proof.
  intros H. induction l as [|y l IH]; simpl; [now rewrite H|].
  now destruct (f y).
Qed.

(** Adding the indicator column does not change the detection. *)
Lemma station_col_setcol_value vals (d : DataFrame) :
  station_col (columns (setcol (py "value") vals d)) = station_col (columns d).
Proof.
  unfold setcol. destruct (index_of (py "value") (columns d)); simpl; [reflexivity|].
  unfold station_col. rewrite List.filter_app. simpl.
  rewrite List.app_nil_r, find_app_miss by reflexivity. reflexivity.
Qed.

End DetectionFacts.

(** ** Running the script *)

Section StoreFacts.

Implicit Types (w : world) (l : ref) (o : obj) (e : element).

Lemma heap_render e w : heap (render e w) = heap w.
Proof. reflexivity. Qed.

Lemma screen_render e w : screen (render e w) = screen w ++ [e].
Proof. reflexivity. Qed.

Lemma screen_put l o w : screen (put l o w) = screen w.
Proof. reflexivity. Qed.

Lemma screen_alloc o w : screen (alloc o w) = screen w.
Proof. reflexivity. Qed.

Lemma lookup_put_eq l o w : heap (put l o w) !! l = Some o.
Proof. simpl. apply lookup_insert_eq. Qed.

Lemma lookup_put_ne l l' o w : l <> l' -> heap (put l o w) !! l' = heap w !! l'.
Proof. intros H. simpl. now apply lookup_insert_ne. Qed.

Lemma fresh_ref_free w : heap w !! fresh_ref w = None.
Proof. apply not_elem_of_dom. unfold fresh_ref. apply is_fresh. Qed.

Lemma fresh_ref_ne w l o : heap w !! l = Some o -> fresh_ref w <> l.
Proof. intros H E. rewrite <- E, fresh_ref_free in H. discriminate. Qed.

Lemma lookup_alloc_new o w : heap (alloc o w) !! fresh_ref w = Some o.
Proof. apply lookup_put_eq. Qed.

Lemma lookup_alloc_old o o' w l :
  heap w !! l = Some o' -> heap (alloc o w) !! l = Some o'.
Proof.
  intros H. unfold alloc. rewrite lookup_put_ne; [assumption|].
  eapply fresh_ref_ne; eassumption.
Qed.

End StoreFacts.

Section RunFacts.

Context {A B : Type}.
Implicit Types (w : world) (l : ref) (o : obj) (m : script A) (k : A -> script B).

Lemma bind_run m k w a w' : m w = (Ret a, w') -> bind m k w = k a w'.
Proof. intros H. unfold bind. now rewrite H. Qed.

Lemma bind_stopped m k w w' : m w = (Stopped, w') -> bind m k w = (Stopped, w').
Proof. intros H. unfold bind. now rewrite H. Qed.

Lemma bind_raised m k w w' x :
  m w = (Raised x, w') -> bind m k w = (Raised x, w').
Proof. intros H. unfold bind. now rewrite H. Qed.

End RunFacts.

(** One statement of the script ran as the equation [E] says. *)
Tactic Notation "run_step" uconstr(E) := rewrite (bind_run _ _ _ _ _ E).

Section PrimitiveFacts.

Implicit Types (w : world) (l : ref) (o : obj) (d : DataFrame) (g : Aggregated).

Lemma run_st (e : element) w : st e w = (Ret tt, render e w).
Proof. reflexivity. Qed.

Lemma run_frame_at l d w :
  heap w !! l = Some (Frame d) -> frame_at l w = (Ret d, w).
Proof. intros H. unfold frame_at. now rewrite H. Qed.

Lemma run_grouped_at l g w :
  heap w !! l = Some (Grouped g) -> grouped_at l w = (Ret g, w).
Proof. intros H. unfold grouped_at. now rewrite H. Qed.

Lemma run_getitem l name d col w :
  heap w !! l = Some (Frame d) -> getcol name d = Some col ->
  getitem l name w = (Ret col, w).
Proof.
  intros H Hc. unfold getitem. run_step (run_frame_at _ _ _ H).
  now rewrite Hc.
Qed.

Lemma run_getitem_missing l name d w :
  heap w !! l = Some (Frame d) -> getcol name d = None ->
  getitem l name w = (Raised (KeyError name), w).
Proof.
  intros H Hc. unfold getitem. run_step (run_frame_at _ _ _ H).
  now rewrite Hc.
Qed.

Lemma run_setitem_scalar l name v d w :
  heap w !! l = Some (Frame d) ->
  setitem_scalar l name v w = (Ret tt, put l (Frame (setcol_scalar name v d)) w).
Proof.
  intros H. unfold setitem_scalar.
  now run_step (run_frame_at _ _ _ H).
Qed.

Lemma run_df_query l name sel d dq w :
  heap w !! l = Some (Frame d) -> query_isin name sel d = Some dq ->
  df_query l name sel w = (Ret (fresh_ref w), alloc (Frame dq) w).
Proof.
  intros H Hq. unfold df_query.
  run_step (run_frame_at _ _ _ H). now rewrite Hq.
Qed.

Lemma run_copy l o w :
  heap w !! l = Some o -> copy l w = (Ret (fresh_ref w), alloc o w).
Proof. intros H. unfold copy. now rewrite H. Qed.

Lemma run_df_groupby_sum l key d keys vals w :
  heap w !! l = Some (Frame d) ->
  getcol key d = Some keys -> getcol (py "value") d = Some vals ->
  df_groupby_sum l key w
  = (Ret (fresh_ref w),
     alloc (Grouped {| by_col := key; agg := groupby_sum keys vals;
                       tick_label := None |}) w).
Proof.
  intros H Hk Hv. unfold df_groupby_sum.
  run_step (run_getitem _ _ _ _ _ H Hk).
  now run_step (run_getitem _ _ _ _ _ H Hv).
Qed.

Lemma run_df_nlargest n l g w :
  heap w !! l = Some (Grouped g) ->
  df_nlargest n l w
  = (Ret (fresh_ref w),
     alloc (Grouped {| by_col := by_col g; agg := nlargest n (agg g);
                       tick_label := tick_label g |}) w).
Proof.
  intros H. unfold df_nlargest.
  now run_step (run_grouped_at _ _ _ H).
Qed.

Lemma run_set_tick_label l labels g w :
  heap w !! l = Some (Grouped g) ->
  set_tick_label l labels w
  = (Ret tt, put l (Grouped {| by_col := by_col g; agg := agg g;
                               tick_label := Some labels |}) w).
Proof.
  intros H. unfold set_tick_label.
  now run_step (run_grouped_at _ _ _ H).
Qed.

Lemma map_pair_id {X Y} (l : list (X * Y)) :
  List.map (fun kv => (fst kv, snd kv)) l = l.
Proof. induction l as [|[x y] l IH]; simpl; now f_equal. Qed.

Lemma run_set_value_numeric l g w :
  heap w !! l = Some (Grouped g) ->
  set_value_numeric l w = (Ret tt, put l (Grouped g) w).
Proof.
  intros H. unfold set_value_numeric.
  run_step (run_grouped_at _ _ _ H).
  rewrite map_pair_id. now destruct g.
Qed.

End PrimitiveFacts.

Section StationsPageFacts.

Implicit Types (w : world) (df : ref) (sf : list cell) (d dq : DataFrame).

(** The page on a selection that matches rows of a table with the columns
    it needs: the whole run, object by object. *)
Lemma stations_page_run df sf w d dq rides c :
  heap w !! df = Some (Frame d) ->
  query_isin (py "season") sf d = Some dq ->
  rows dq <> [] ->
  getcol (py "bike_rides_daily") dq = Some rides ->
  station_col (columns dq) = Some c ->
  exists names w' gl tl season keys,
    stations_page df sf w = (Ret names, w')
    /\ getcol (py "season") d = Some season
    /\ getcol c dq = Some keys
    /\ station_col_df names = Some c
    /\ df_groupby_bar names = Some gl
    /\ top20_local names = Some tl
    /\ heap w' !! df1 names
       = Some (Frame (setcol_scalar (py "value") (Num 1) dq))
    /\ heap w' !! gl
       = Some (Grouped {| by_col := c; agg := station_counts keys;
                          tick_label := None |})
    /\ heap w' !! tl
       = Some (Grouped {| by_col := c;
                          agg := nlargest 20 (station_counts keys);
                          tick_label :=
                            Some (tick_labels (nlargest 20 (station_counts keys))) |})
    /\ screen w'
       = screen w ++ stations_screen season rides (nlargest 20 (station_counts keys)).
Proof.
  intros Hdf Hq Hrows Hrides Hc.
  destruct (query_isin_getcol _ _ _ _ Hq) as [season Hseason].
  destruct (station_col_In _ _ Hc) as [Hin _].
  destruct (In_getcol _ _ Hin) as [keys Hkeys].
  pose proof (station_col_not_value _ _ Hc) as Hcv.
  pose proof (getcol_length _ _ _ Hkeys) as Hlen.
  set (d1 := setcol_scalar (py "value") (Num 1) dq).
  assert (Hk1 : getcol c d1 = Some keys)
    by (unfold d1, setcol_scalar; now rewrite getcol_setcol_other).
  assert (Hv1 : getcol (py "value") d1 = Some (repeat (Num 1) (List.length keys))).
  { unfold d1, setcol_scalar. rewrite Hlen. apply getcol_setcol, List.repeat_length. }
  assert (Hc1 : station_col (columns d1) = Some c)
    by (unfold d1, setcol_scalar; now rewrite station_col_setcol_value).
  unfold stations_page.
  run_step (run_getitem _ _ _ _ _ Hdf Hseason).
  run_step (run_st _ _).
  set (w1 := render _ w).
  run_step (run_df_query _ _ _ _ _ w1 Hdf Hq).
  set (w2 := alloc _ w1).
  run_step (run_copy _ _ w2 (lookup_alloc_new _ w1)).
  set (l1 := fresh_ref w2). set (w3 := alloc _ w2).
  assert (H3 : heap w3 !! l1 = Some (Frame dq)) by apply lookup_alloc_new.
  run_step (run_frame_at _ _ _ H3).
  rewrite (query_isin_not_empty _ _ _ _ Hq Hrows).
  run_step (run_getitem _ _ _ _ _ H3 Hrides).
  run_step (run_st _ _).
  set (w4 := render _ w3).
  run_step (run_setitem_scalar _ _ _ _ w4 H3).
  fold d1. set (w5 := put l1 (Frame d1) w4).
  assert (H5 : heap w5 !! l1 = Some (Frame d1)) by apply lookup_put_eq.
  run_step (run_frame_at _ _ _ H5).
  rewrite Hc1.
  run_step (run_df_groupby_sum _ _ _ _ _ _ H5 Hk1 Hv1).
  fold (station_counts keys).
  set (G := {| by_col := c; agg := station_counts keys; tick_label := None |}).
  set (gl := fresh_ref w5). set (w6 := alloc (Grouped G) w5).
  assert (H6 : heap w6 !! gl = Some (Grouped G)) by apply lookup_alloc_new.
  run_step (run_df_nlargest _ _ _ _ H6). simpl by_col. simpl agg.
  simpl tick_label.
  set (T0 := {| by_col := c; agg := nlargest 20 (station_counts keys);
                        tick_label := None |}).
  set (n := fresh_ref w6). set (w7 := alloc (Grouped T0) w6).
  run_step (run_copy _ _ w7 (lookup_alloc_new _ w6)).
  set (tl := fresh_ref w7). set (w8 := alloc (Grouped T0) w7).
  assert (H8 : heap w8 !! tl = Some (Grouped T0)) by apply lookup_alloc_new.
  run_step (run_grouped_at _ _ _ H8).
  run_step (run_set_tick_label _ _ _ _ H8). simpl by_col. simpl agg.
  fold (tick_labels (nlargest 20 (station_counts keys))).
  set (T1 := {| by_col := c; agg := nlargest 20 (station_counts keys);
                        tick_label := Some (tick_labels (nlargest 20 (station_counts keys))) |}).
  set (w9 := put tl (Grouped T1) w8).
  assert (H9 : heap w9 !! tl = Some (Grouped T1)) by apply lookup_put_eq.
  run_step (run_set_value_numeric _ _ _ H9).
  set (w10 := put tl (Grouped T1) w9).
  assert (H10 : heap w10 !! tl = Some (Grouped T1)) by apply lookup_put_eq.
  run_step (run_grouped_at _ _ _ H10).
  do 3 run_step (run_st _ _).
  assert (H7g : heap w7 !! gl = Some (Grouped G)) by (now apply lookup_alloc_old).
  assert (H8g : heap w8 !! gl = Some (Grouped G)) by (now apply lookup_alloc_old).
  assert (Hne : tl <> gl) by (eapply fresh_ref_ne; exact H7g).
  assert (H6l : heap w6 !! l1 = Some (Frame d1)) by (now apply lookup_alloc_old).
  assert (H7l : heap w7 !! l1 = Some (Frame d1)) by (now apply lookup_alloc_old).
  assert (H8l : heap w8 !! l1 = Some (Frame d1)) by (now apply lookup_alloc_old).
  assert (Hne' : tl <> l1) by (eapply fresh_ref_ne; exact H7l).
  eexists _, _, gl, tl, season, keys. split; [reflexivity|].
  simpl. repeat split; try assumption.
  - rewrite !lookup_insert_ne by assumption. exact H7l.
  - rewrite !lookup_insert_ne by assumption. exact H7g.
  - unfold stations_screen. now rewrite <- !List.app_assoc.
Qed.

End StationsPageFacts.

(** ** What the page leaves untouched *)

Section KeepsFacts.

Variable h0 : gmap nat obj.
Implicit Types (w : world) (l : ref) (o : obj).

Lemma preserved_unused w : preserved h0 w -> unused h0 (fresh_ref w).
Proof.
  intros H. unfold unused. destruct (h0 !! fresh_ref w) as [o|] eqn:E; [|reflexivity].
  apply H in E. now rewrite fresh_ref_free in E.
Qed.

Lemma preserved_put l o w : unused h0 l -> preserved h0 w -> preserved h0 (put l o w).
Proof.
  intros Hl H l' o' E. rewrite lookup_put_ne; [now apply H|].
  intros ->. unfold unused in Hl. congruence.
Qed.

Lemma preserved_alloc o w : preserved h0 w -> preserved h0 (alloc o w).
Proof. intros H. apply preserved_put; [now apply preserved_unused|assumption]. Qed.

Lemma keeps_ret {A} (a : A) (post : A -> Prop) : post a -> keeps h0 (ret a) post.
Proof. intros Ha w H. split; [exact H|]. now intros a' [= <-]. Qed.

Lemma keeps_bind {A B} (m : script A) (k : A -> script B) P Q :
  keeps h0 m P -> (forall a, P a -> keeps h0 (k a) Q) -> keeps h0 (bind m k) Q.
Proof.
  intros Hm Hk w H. destruct (Hm w H) as [H1 H2]. unfold bind.
  destruct (m w) as [[a| |x] w']; simpl in *; try (split; [exact H1|discriminate]).
  exact (Hk a (H2 a eq_refl) w' H1).
Qed.

Lemma keeps_weaken {A} (m : script A) (P Q : A -> Prop) :
  keeps h0 m P -> (forall a, P a -> Q a) -> keeps h0 m Q.
Proof. intros Hm HPQ w H. destruct (Hm w H) as [H1 H2]. split; auto. Qed.

Lemma keeps_st e : keeps h0 (st e) anything.
Proof. intros w H. split; [exact H|]. now intros. Qed.

Lemma keeps_raise {A} x (post : A -> Prop) : keeps h0 (raise x) post.
Proof. intros w H. split; [exact H|discriminate]. Qed.

Lemma keeps_st_stop {A} (post : A -> Prop) : keeps h0 st_stop post.
Proof. intros w H. split; [exact H|discriminate]. Qed.

Lemma keeps_frame_at l : keeps h0 (frame_at l) anything.
Proof.
  intros w H. unfold frame_at.
  destruct (heap w !! l) as [[d|g]|]; (split; [exact H|now intros]).
Qed.

Lemma keeps_grouped_at l : keeps h0 (grouped_at l) anything.
Proof.
  intros w H. unfold grouped_at.
  destruct (heap w !! l) as [[d|g]|]; (split; [exact H|now intros]).
Qed.

Lemma keeps_new o : keeps h0 (new o) (unused h0).
Proof.
  intros w H. split; [now apply preserved_alloc|].
  intros a [= <-]. now apply preserved_unused.
Qed.

Lemma keeps_store l o : unused h0 l -> keeps h0 (store l o) anything.
Proof. intros Hl w H. split; [now apply preserved_put|now intros]. Qed.

(** The next statement keeps [h0] by lemma [L]; go on with the rest. *)
Ltac keep L := eapply keeps_bind; [apply L|].

Lemma keeps_copy l : keeps h0 (copy l) (unused h0).
Proof.
  intros w H. unfold copy. destruct (heap w !! l) as [o|].
  - now apply keeps_new.
  - split; [exact H|discriminate].
Qed.

Lemma keeps_getitem l name : keeps h0 (getitem l name) anything.
Proof.
  unfold getitem. keep keeps_frame_at.
  intros d _. destruct (getcol name d).
  - now apply keeps_ret.
  - apply keeps_raise.
Qed.

Lemma keeps_setitem_scalar l name v :
  unused h0 l -> keeps h0 (setitem_scalar l name v) anything.
Proof.
  intros Hl. unfold setitem_scalar. keep keeps_frame_at.
  intros d _. now apply keeps_store.
Qed.

Lemma keeps_df_query l name sel : keeps h0 (df_query l name sel) (unused h0).
Proof.
  unfold df_query. keep keeps_frame_at.
  intros d _. destruct (query_isin name sel d).
  - apply keeps_new.
  - apply keeps_raise.
Qed.

Lemma keeps_df_groupby_sum l key : keeps h0 (df_groupby_sum l key) (unused h0).
Proof.
  unfold df_groupby_sum.
  keep keeps_getitem. intros keys _.
  keep keeps_getitem. intros vals _.
  apply keeps_new.
Qed.

Lemma keeps_df_nlargest n l : keeps h0 (df_nlargest n l) (unused h0).
Proof.
  unfold df_nlargest. keep keeps_grouped_at.
  intros g _. apply keeps_new.
Qed.

Lemma keeps_set_tick_label l labels :
  unused h0 l -> keeps h0 (set_tick_label l labels) anything.
Proof.
  intros Hl. unfold set_tick_label. keep keeps_grouped_at.
  intros g _. now apply keeps_store.
Qed.

Lemma keeps_set_value_numeric l :
  unused h0 l -> keeps h0 (set_value_numeric l) anything.
Proof.
  intros Hl. unfold set_value_numeric. keep keeps_grouped_at.
  intros g _. now apply keeps_store.
Qed.

(** The page writes only to the objects it creates. *)
Lemma keeps_stations_page df sf : keeps h0 (stations_page df sf) (own_frames h0).
Proof.
  unfold stations_page.
  keep keeps_getitem. intros season _.
  keep keeps_st. intros _ _.
  keep keeps_df_query. intros q _.
  keep keeps_copy. intros l1 Hl1.
  keep keeps_frame_at. intros d1 _.
  destruct (empty d1).
  { keep keeps_st. intros _ _. apply keeps_ret.
    repeat split; [exact Hl1|discriminate|discriminate]. }
  keep keeps_getitem. intros rides _.
  keep keeps_st. intros _ _.
  eapply keeps_bind; [now apply keeps_setitem_scalar|]. intros _ _.
  keep keeps_frame_at. intros d1' _.
  destruct (station_col (columns d1')) as [c|].
  2:{ keep keeps_st. intros _ _. apply keeps_st_stop. }
  keep keeps_df_groupby_sum. intros gl Hgl.
  keep keeps_df_nlargest. intros n _.
  keep keeps_copy. intros tl Htl.
  keep keeps_grouped_at. intros t _.
  eapply keeps_bind; [now apply keeps_set_tick_label|]. intros _ _.
  eapply keeps_bind; [now apply keeps_set_value_numeric|]. intros _ _.
  keep keeps_grouped_at. intros t' _.
  keep keeps_st. intros _ _.
  keep keeps_st. intros _ _.
  keep keeps_st. intros _ _.
  apply keeps_ret. repeat split; [exact Hl1| |]; now intros l [= <-].
Qed.

End KeepsFacts.

Section StationsPageBranches.

Implicit Types (w : world) (df : ref) (sf : list cell) (d dq : DataFrame).

(** The page on a selection that matches no row. *)
Lemma stations_page_no_rows df sf w d dq :
  heap w !! df = Some (Frame d) ->
  query_isin (py "season") sf d = Some dq ->
  rows dq = [] ->
  exists season l1,
    getcol (py "season") d = Some season
    /\ stations_page df sf w
       = (Ret {| df1 := l1; station_col_df := None;
                 df_groupby_bar := None; top20_local := None |},
          render (Error msg_no_data)
            (alloc (Frame dq)
               (alloc (Frame dq)
                  (render (Multiselect "Select the Season"
                           (unique season) (unique season)) w)))).
Proof.
  intros Hdf Hq Hrows.
  destruct (query_isin_getcol _ _ _ _ Hq) as [season Hseason].
  exists season. eexists. split; [exact Hseason|].
  unfold stations_page.
  run_step (run_getitem _ _ _ _ _ Hdf Hseason).
  run_step (run_st _ _).
  set (w1 := render _ w).
  run_step (run_df_query _ _ _ _ _ w1 Hdf Hq).
  set (w2 := alloc _ w1).
  run_step (run_copy _ _ w2 (lookup_alloc_new _ w1)).
  set (w3 := alloc _ w2).
  assert (H3 : heap w3 !! fresh_ref w2 = Some (Frame dq)) by apply lookup_alloc_new.
  run_step (run_frame_at _ _ _ H3).
  rewrite (query_isin_is_empty _ _ _ _ Hq Hrows).
  run_step (run_st _ _).
  reflexivity.
Qed.

(** The page on a table in which no column passes for the station. *)
Lemma stations_page_no_station df sf w d dq rides :
  heap w !! df = Some (Frame d) ->
  query_isin (py "season") sf d = Some dq ->
  rows dq <> [] ->
  getcol (py "bike_rides_daily") dq = Some rides ->
  station_col (columns dq) = None ->
  exists season w',
    getcol (py "season") d = Some season
    /\ stations_page df sf w = (Stopped, w')
    /\ screen w'
       = screen w ++
         [ Multiselect "Select the Season" (unique season) (unique season);
           Metric "Total Bike Rides" (count rides);
           Error msg_no_station ]
    /\ (forall l g, heap w' !! l = Some (Grouped g) -> heap w !! l = Some (Grouped g)).
Proof.
  intros Hdf Hq Hrows Hrides Hc.
  destruct (query_isin_getcol _ _ _ _ Hq) as [season Hseason].
  set (d1 := setcol_scalar (py "value") (Num 1) dq).
  assert (Hc1 : station_col (columns d1) = None)
    by (unfold d1, setcol_scalar; now rewrite station_col_setcol_value).
  exists season. eexists. split; [exact Hseason|].
  unfold stations_page.
  run_step (run_getitem _ _ _ _ _ Hdf Hseason).
  run_step (run_st _ _).
  set (w1 := render _ w).
  run_step (run_df_query _ _ _ _ _ w1 Hdf Hq).
  set (w2 := alloc _ w1).
  run_step (run_copy _ _ w2 (lookup_alloc_new _ w1)).
  set (l1 := fresh_ref w2). set (w3 := alloc _ w2).
  assert (H3 : heap w3 !! l1 = Some (Frame dq)) by apply lookup_alloc_new.
  run_step (run_frame_at _ _ _ H3).
  rewrite (query_isin_not_empty _ _ _ _ Hq Hrows).
  run_step (run_getitem _ _ _ _ _ H3 Hrides).
  run_step (run_st _ _).
  set (w4 := render _ w3).
  run_step (run_setitem_scalar _ _ _ _ w4 H3).
  fold d1. set (w5 := put l1 (Frame d1) w4).
  assert (H5 : heap w5 !! l1 = Some (Frame d1)) by apply lookup_put_eq.
  run_step (run_frame_at _ _ _ H5).
  rewrite Hc1.
  run_step (run_st _ _).
  split; [reflexivity|]. split.
  - simpl. now rewrite <- !List.app_assoc.
  - intros l g. simpl.
    rewrite !lookup_insert. repeat case_decide; try discriminate. auto.
Qed.

End StationsPageBranches.

(** ** The aggregation stage *)

(** C1: on a selection that matches rows of a table of trip records (one
    with the ride count and a station column), the page ends normally and
    [top20_local] holds at most 20 (station, trip count) pairs in decreasing
    order of count; each pair is a station present in the selected rows with
    the number of selected rows that carry it. *)
Theorem top20_at_most_20_sorted (df : ref) (sf : list cell) (w : world)
    (d dq : DataFrame) (rides : list cell) (c : pystr) :
  heap w !! df = Some (Frame d) ->
  query_isin (py "season") sf d = Some dq ->
  rows dq <> [] ->
  getcol (py "bike_rides_daily") dq = Some rides ->
  station_col (columns dq) = Some c ->
  exists names w' tl t keys,
    stations_page df sf w = (Ret names, w')
    /\ top20_local names = Some tl
    /\ heap w' !! tl = Some (Grouped t)
    /\ getcol c dq = Some keys
    /\ (List.length (agg t) <= 20)%nat
    /\ StronglySorted by_value_desc (agg t)
    /\ (forall k n, In (k, n) (agg t) ->
          In k keys /\ notna k = true
          /\ n = Z.of_nat (count_occ cell_eq_dec keys k)).
Proof.
  intros Hdf Hq Hrows Hrides Hc.
  destruct (stations_page_run _ _ _ _ _ _ _ Hdf Hq Hrows Hrides Hc)
    as (names & w' & gl & tl & season & keys & Hrun & _ & Hkeys & _ & _ & Htl & _ & _ & Ht & _).
  exists names, w', tl. eexists. exists keys.
  split; [exact Hrun|]. split; [exact Htl|]. split; [exact Ht|].
  split; [exact Hkeys|]. simpl. split; [apply nlargest_length|].
  split; [apply nlargest_sorted|].
  intros k n Hin. apply nlargest_incl in Hin. now apply groupby_sum_In.
Qed.

Lemma top20_at_most_20_sorted_witness :
  exists names w' tl t keys,
    stations_page 0%nat [Str (py "Summer")] (Sample.loaded Sample.trips) = (Ret names, w')
    /\ top20_local names = Some tl
    /\ heap w' !! tl = Some (Grouped t)
    /\ getcol (py "start_station_name") Sample.trips = Some keys
    /\ (List.length (agg t) <= 20)%nat
    /\ StronglySorted by_value_desc (agg t)
    /\ (forall k n, In (k, n) (agg t) ->
          In k keys /\ notna k = true
          /\ n = Z.of_nat (count_occ cell_eq_dec keys k)).
Proof.
  apply (top20_at_most_20_sorted 0%nat [Str (py "Summer")]
           (Sample.loaded Sample.trips) Sample.trips Sample.trips
           (repeat (Num 1200) 40) (py "start_station_name")).
  - reflexivity.
  - reflexivity.
  - discriminate.
  - reflexivity.
  - reflexivity.
Defined.

(** C2 (as the code has it): the counts of the grouped frame, before the
    top 20 are taken, add up to the selected rows whose station is present;
    [groupby] drops the rows with a missing station.  When no selected row
    lacks its station this is the number of selected rows. *)
Theorem groupby_counts_add_up (df : ref) (sf : list cell) (w : world)
    (d dq : DataFrame) (rides : list cell) (c : pystr) :
  heap w !! df = Some (Frame d) ->
  query_isin (py "season") sf d = Some dq ->
  rows dq <> [] ->
  getcol (py "bike_rides_daily") dq = Some rides ->
  station_col (columns dq) = Some c ->
  exists names w' gl g keys,
    stations_page df sf w = (Ret names, w')
    /\ df_groupby_bar names = Some gl
    /\ heap w' !! gl = Some (Grouped g)
    /\ getcol c dq = Some keys
    /\ sum_values (agg g) = count keys
    /\ (Forall (fun k => notna k = true) keys ->
        sum_values (agg g) = Z.of_nat (List.length (rows dq))).
Proof.
  intros Hdf Hq Hrows Hrides Hc.
  destruct (stations_page_run _ _ _ _ _ _ _ Hdf Hq Hrows Hrides Hc)
    as (names & w' & gl & tl & season & keys & Hrun & _ & Hkeys & _ & Hgl & _ & _ & Hg & _).
  exists names, w', gl. eexists. exists keys.
  split; [exact Hrun|]. split; [exact Hgl|]. split; [exact Hg|].
  split; [exact Hkeys|]. simpl. unfold station_counts.
  split; [apply groupby_sum_total|].
  intros Hall. rewrite groupby_sum_total, count_all_present by assumption.
  f_equal. eapply getcol_length. exact Hkeys.
Qed.

Lemma groupby_counts_add_up_witness :
  exists names w' gl g keys,
    stations_page 0%nat [Str (py "Summer")] (Sample.loaded Sample.trips) = (Ret names, w')
    /\ df_groupby_bar names = Some gl
    /\ heap w' !! gl = Some (Grouped g)
    /\ getcol (py "start_station_name") Sample.trips = Some keys
    /\ sum_values (agg g) = count keys
    /\ (Forall (fun k => notna k = true) keys ->
        sum_values (agg g) = Z.of_nat (List.length (rows Sample.trips))).
Proof.
  apply (groupby_counts_add_up 0%nat [Str (py "Summer")]
           (Sample.loaded Sample.trips) Sample.trips Sample.trips
           (repeat (Num 1200) 40) (py "start_station_name")).
  - reflexivity.
  - reflexivity.
  - discriminate.
  - reflexivity.
  - reflexivity.
Defined.

(** C2 as stated fails when a selected trip has no station name: two rows
    match the selection, the groups count one. *)
Lemma groupby_counts_counterexample :
  exists names w' gl g dq,
    stations_page 0%nat [Str (py "Summer")] (Sample.loaded Sample.trips_unnamed)
    = (Ret names, w')
    /\ df_groupby_bar names = Some gl
    /\ heap w' !! gl = Some (Grouped g)
    /\ query_isin (py "season") [Str (py "Summer")] Sample.trips_unnamed = Some dq
    /\ List.length (rows dq) = 2%nat
    /\ agg g = [(Str (py "A"), 1)]
    /\ sum_values (agg g) = 1
    /\ sum_values (agg g) <> Z.of_nat (List.length (rows dq)).
Proof.
  eexists _, _, _, _, _. split; [vm_compute; reflexivity|].
  split; [reflexivity|]. split; [vm_compute; reflexivity|].
  split; [reflexivity|].
  repeat split. discriminate.
Qed.

Lemma find_all_false {A} (f : A -> bool) (l : list A) :
  (forall x, In x l -> f x = false) -> List.find f l = None.
Proof.
  induction l as [|y l IH]; simpl; intros H; [reflexivity|].
  rewrite (H y (or_introl eq_refl)). apply IH. auto.
Qed.

(** The selection rule of the station column, on any header. *)
Lemma station_col_rule (cols : list pystr) :
  ((exists c, In c cols /\ contains (py "start") c = true
              /\ contains (py "station") c = true) ->
   exists c, station_col cols = Some c /\ In c cols
             /\ contains (py "start") c = true
             /\ contains (py "station") c = true)
  /\ ((forall c, In c cols ->
         ~ (contains (py "start") c = true /\ contains (py "station") c = true)) ->
      (exists c, In c cols /\ (contains (py "station") c = true
                               \/ contains (py "name") c = true)) ->
      exists c, station_col cols = Some c /\ In c cols
                /\ (contains (py "station") c = true
                    \/ contains (py "name") c = true))
  /\ ((forall c, In c cols ->
         contains (py "station") c = false /\ contains (py "name") c = false) ->
      station_col cols = None).
Proof.
  split; [|split].
  - intros (c & Hin & H1 & H2).
    destruct (List.filter is_candidate cols) as [|c' rest] eqn:E.
    + rewrite filter_nil_iff in E. specialize (E c Hin).
      rewrite (proj2 (is_candidate_spec c) (conj H1 H2)) in E. discriminate.
    + exists c'. split; [eapply station_col_candidate; eassumption|].
      assert (H : In c' (List.filter is_candidate cols)) by (rewrite E; now left).
      apply List.filter_In in H as [H H']. apply is_candidate_spec in H'. tauto.
  - intros Hnone (c & Hin & H).
    assert (E : List.filter is_candidate cols = []).
    { apply filter_nil_iff. intros x Hx. specialize (Hnone x Hx).
      destruct (is_candidate x) eqn:Ex; [|reflexivity].
      apply is_candidate_spec in Ex. contradiction. }
    rewrite (station_col_fallback _ E).
    destruct (List.find is_fallback cols) as [c'|] eqn:F.
    + exists c'. split; [reflexivity|]. apply List.find_some in F as [F1 F2].
      apply is_fallback_spec in F2. tauto.
    + pose proof (List.find_none _ _ F c Hin) as Hf.
      apply is_fallback_spec in H. congruence.
  - intros Hnone.
    assert (E : List.filter is_candidate cols = []).
    { apply filter_nil_iff. intros x Hx. destruct (Hnone x Hx) as [H _].
      unfold is_candidate. rewrite H. now rewrite andb_false_r. }
    rewrite (station_col_fallback _ E). apply find_all_false.
    intros x Hx. destruct (Hnone x Hx) as [H1 H2].
    unfold is_fallback. now rewrite H1, H2.
Qed.

(** C5: the station column is a column whose name contains both "start"
    and "station" if there is one, else a column whose name contains
    "station" or "name"; the page goes on with that column, and when there
    is none it shows the configuration error and stops: nothing is grouped
    and no chart is drawn. *)
Theorem station_column_detection (df : ref) (sf : list cell) (w : world)
    (d dq : DataFrame) (rides : list cell) :
  heap w !! df = Some (Frame d) ->
  query_isin (py "season") sf d = Some dq ->
  rows dq <> [] ->
  getcol (py "bike_rides_daily") dq = Some rides ->
  columns dq = columns d
  /\ ((exists c, In c (columns d) /\ contains (py "start") c = true
                 /\ contains (py "station") c = true) ->
      exists c names w',
        stations_page df sf w = (Ret names, w')
        /\ station_col_df names = Some c /\ In c (columns d)
        /\ contains (py "start") c = true /\ contains (py "station") c = true)
  /\ ((forall c, In c (columns d) ->
         ~ (contains (py "start") c = true /\ contains (py "station") c = true)) ->
      (exists c, In c (columns d) /\ (contains (py "station") c = true
                                      \/ contains (py "name") c = true)) ->
      exists c names w',
        stations_page df sf w = (Ret names, w')
        /\ station_col_df names = Some c /\ In c (columns d)
        /\ (contains (py "station") c = true \/ contains (py "name") c = true))
  /\ ((forall c, In c (columns d) ->
         contains (py "station") c = false /\ contains (py "name") c = false) ->
      exists season w',
        stations_page df sf w = (Stopped, w')
        /\ screen w'
           = screen w ++
             [ Multiselect "Select the Season" (unique season) (unique season);
               Metric "Total Bike Rides" (count rides);
               Error msg_no_station ]
        /\ (forall l g, heap w' !! l = Some (Grouped g) ->
                        heap w !! l = Some (Grouped g))).
Proof.
  intros Hdf Hq Hrows Hrides.
  pose proof (query_isin_columns _ _ _ _ Hq) as Hcols.
  destruct (station_col_rule (columns d)) as (R1 & R2 & R3).
  split; [exact Hcols|]. split; [|split].
  - intros H. destruct (R1 H) as (c & Hc & Hin & H1 & H2).
    rewrite <- Hcols in Hc.
    destruct (stations_page_run _ _ _ _ _ _ _ Hdf Hq Hrows Hrides Hc)
      as (names & w' & gl & tl & season & keys & Hrun & _ & _ & Hn & _).
    exists c, names, w'. auto.
  - intros Hnone H. destruct (R2 Hnone H) as (c & Hc & Hin & H').
    rewrite <- Hcols in Hc.
    destruct (stations_page_run _ _ _ _ _ _ _ Hdf Hq Hrows Hrides Hc)
      as (names & w' & gl & tl & season & keys & Hrun & _ & _ & Hn & _).
    exists c, names, w'. auto.
  - intros Hnone. pose proof (R3 Hnone) as Hc. rewrite <- Hcols in Hc.
    destruct (stations_page_no_station _ _ _ _ _ _ Hdf Hq Hrows Hrides Hc)
      as (season & w' & _ & Hrun & Hscreen & Hheap).
    exists season, w'. auto.
Qed.

Lemma station_column_detection_witness :
  exists season w',
    stations_page 0%nat [Str (py "Summer")] (Sample.loaded Sample.trips_no_station)
    = (Stopped, w')
    /\ screen w'
       = screen (Sample.loaded Sample.trips_no_station) ++
         [ Multiselect "Select the Season" (unique season) (unique season);
           Metric "Total Bike Rides" (count [Num 1200]);
           Error msg_no_station ]
    /\ (forall l g, heap w' !! l = Some (Grouped g) ->
                    heap (Sample.loaded Sample.trips_no_station) !! l
                    = Some (Grouped g)).
Proof.
  refine (proj2 (proj2 (proj2
    (station_column_detection 0%nat [Str (py "Summer")]
       (Sample.loaded Sample.trips_no_station)
       Sample.trips_no_station Sample.trips_no_station [Num 1200] _ _ _ _))) _).
  - reflexivity.
  - reflexivity.
  - discriminate.
  - reflexivity.
  - intros c Hc. simpl in Hc.
    destruct Hc as [<-|[<-|[<-|[]]]]; split; reflexivity.
Defined.

(** ** Empty selections and missing files *)

(** C6: a selection that matches no row, the empty selection among them,
    makes the page render the "no data" message, which is not the message of
    the missing file, and go on to its end: it is not stopped, nothing is
    grouped or ranked, and no chart is drawn. *)
Theorem no_matching_rows_reported (df : ref) (sf : list cell) (w : world)
    (d dq : DataFrame) :
  heap w !! df = Some (Frame d) ->
  query_isin (py "season") sf d = Some dq ->
  sf = [] \/ rows dq = [] ->
  exists names w' season,
    stations_page df sf w = (Ret names, w')
    /\ is_fatal (fst (stations_page df sf w)) = false
    /\ rows dq = []
    /\ station_col_df names = None
    /\ df_groupby_bar names = None
    /\ top20_local names = None
    /\ screen w'
       = screen w ++
         [ Multiselect "Select the Season" (unique season) (unique season);
           Error msg_no_data ]
    /\ msg_no_data <> msg_file_missing
    /\ (forall l g, heap w' !! l = Some (Grouped g) ->
                    heap w !! l = Some (Grouped g)).
Proof.
  intros Hdf Hq Hsel.
  assert (Hrows : rows dq = []).
  { destruct Hsel as [->|H]; [|exact H].
    eapply query_isin_empty_selection. exact Hq. }
  destruct (stations_page_no_rows _ _ _ _ _ Hdf Hq Hrows)
    as (season & l1 & Hseason & Hrun).
  eexists _, _, season. split; [exact Hrun|]. rewrite Hrun.
  repeat split; try assumption.
  - simpl. now rewrite <- List.app_assoc.
  - discriminate.
  - intros l g. simpl.
    rewrite !lookup_insert. repeat case_decide; try discriminate. auto.
Qed.

Lemma no_matching_rows_reported_witness :
  exists names w' season,
    stations_page 0%nat [] (Sample.loaded Sample.trips) = (Ret names, w')
    /\ is_fatal (fst (stations_page 0%nat [] (Sample.loaded Sample.trips))) = false
    /\ rows {| columns := Sample.header; rows := [] |} = []
    /\ station_col_df names = None
    /\ df_groupby_bar names = None
    /\ top20_local names = None
    /\ screen w'
       = screen (Sample.loaded Sample.trips) ++
         [ Multiselect "Select the Season" (unique season) (unique season);
           Error msg_no_data ]
    /\ msg_no_data <> msg_file_missing
    /\ (forall l g, heap w' !! l = Some (Grouped g) ->
                    heap (Sample.loaded Sample.trips) !! l = Some (Grouped g)).
Proof.
  apply (no_matching_rows_reported 0%nat [] (Sample.loaded Sample.trips)
           Sample.trips {| columns := Sample.header; rows := [] |}).
  - reflexivity.
  - reflexivity.
  - left. reflexivity.
Defined.

(** C7: when the primary CSV file is missing the run shows the error and
    stops there, whatever page was picked: no object is created, and after
    the title and the sidebar nothing but the error is rendered. *)
Theorem missing_primary_file_is_fatal
    (to_datetime : list cell -> option (list cell)) (s : session) (w : world) :
  reduced_data_to_plot_7 s = Missing ->
  fst (main to_datetime s w) = Stopped
  /\ is_fatal (fst (main to_datetime s w)) = true
  /\ heap (snd (main to_datetime s w)) = heap w
  /\ screen (snd (main to_datetime s w))
     = screen w ++
       [ Title "Citi Bike Strategy Dashboard";
         SidebarTitle "Aspect Selector";
         Selectbox "Select an aspect of the analysis";
         Error msg_file_missing ].
Proof.
  intros H.
  assert (E : main to_datetime s w
              = (Stopped,
                 render (Error msg_file_missing)
                   (render (Selectbox "Select an aspect of the analysis")
                      (render (SidebarTitle "Aspect Selector")
                         (render (Title "Citi Bike Strategy Dashboard") w))))).
  { unfold main. do 3 run_step (run_st _ _).
    apply bind_stopped. unfold load_primary. rewrite H.
    now run_step (run_st _ _). }
  rewrite E. simpl. repeat split. now rewrite <- !List.app_assoc.
Qed.

Lemma missing_primary_file_is_fatal_witness :
  fst (main (fun _ => None) (Sample.session_without_file StationsPage) start) = Stopped
  /\ is_fatal (fst (main (fun _ => None)
                      (Sample.session_without_file StationsPage) start)) = true
  /\ heap (snd (main (fun _ => None)
                  (Sample.session_without_file StationsPage) start)) = heap start
  /\ screen (snd (main (fun _ => None)
                    (Sample.session_without_file StationsPage) start))
     = screen start ++
       [ Title "Citi Bike Strategy Dashboard";
         SidebarTitle "Aspect Selector";
         Selectbox "Select an aspect of the analysis";
         Error msg_file_missing ].
Proof.
  apply (missing_primary_file_is_fatal (fun _ => None)
           (Sample.session_without_file StationsPage) start).
  reflexivity.
Defined.

(** ** The source table is left alone *)

(** C9: however the stations page ends, every object that existed before
    it ran, the source table among them, is unchanged afterwards; the
    filtered copy, the grouped frame and the top 20 it writes to are objects
    it created itself. *)
Theorem stations_page_leaves_source_unchanged (df : ref) (sf : list cell)
    (w : world) :
  (forall d, heap w !! df = Some (Frame d) ->
     heap (snd (stations_page df sf w)) !! df = Some (Frame d))
  /\ (forall l o, heap w !! l = Some o ->
        heap (snd (stations_page df sf w)) !! l = Some o)
  /\ (forall names, fst (stations_page df sf w) = Ret names ->
        heap w !! df1 names = None
        /\ (forall l, df_groupby_bar names = Some l -> heap w !! l = None)
        /\ (forall l, top20_local names = Some l -> heap w !! l = None)).
Proof.
  assert (H0 : preserved (heap w) w) by (intros l o H; exact H).
  destruct (keeps_stations_page (heap w) df sf w H0) as [H1 H2].
  split; [|split].
  - intros d Hd. now apply H1.
  - exact H1.
  - intros names Hn. exact (H2 names Hn).
Qed.

Lemma stations_page_leaves_source_unchanged_witness :
  heap (snd (stations_page 0%nat [Str (py "Summer")] (Sample.loaded Sample.trips)))
    !! 0%nat
  = Some (Frame Sample.trips).
Proof.
  apply (proj1 (stations_page_leaves_source_unchanged 0%nat [Str (py "Summer")]
                  (Sample.loaded Sample.trips))).
  reflexivity.
Defined.

(** ** Worked examples *)

Example shorten_short : shorten (py "Grove St PATH") 28 = py "Grove St PATH".
Proof. reflexivity. Qed.

Example shorten_long :
  shorten (py "South Waterfront Walkway - Sinatra Dr & 1 St") 28
  = py "South Waterfront Walkway -" ++ [ellipsis].
Proof. reflexivity. Qed.

(** With a negative length the output is longer than the length, and
    formatting it again shortens it further. *)
Example shorten_negative_length :
  shorten (py "abcd") (-1) = py "ab" ++ [ellipsis]
  /\ shorten (py "ab" ++ [ellipsis]) (-1) = py "a" ++ [ellipsis].
Proof. split; reflexivity. Qed.

Example avgTemp_daily_cumulative :
  avgTemp_daily Z.sub Z.gtb 100 [Some 20; Some 45; Some 75; Some 110]
  = [Some 20; Some 25; Some 30; Some 35].
Proof. reflexivity. Qed.

Example avgTemp_daily_plain :
  avgTemp_daily Z.sub Z.gtb 100 [Some 20; Some 25; None; Some 31]
  = [Some 20; Some 25; None; Some 31].
Proof. reflexivity. Qed.

Example station_col_prefers_start :
  station_col [py "season"; py "end_station_name"; py "start_station_name"]
  = Some (py "start_station_name").
Proof. reflexivity. Qed.

Example station_col_falls_back :
  station_col [py "date"; py "season_name"; py "station"] = Some (py "season_name").
Proof. reflexivity. Qed.

(** The scenario of the specification: stations A, B and C with 10, 25 and
    5 summer trips; selecting Summer charts B, A, C with 25, 10 and 5. *)
Example stations_page_scenario :
  screen (snd (stations_page 0%nat [Str (py "Summer")] (Sample.loaded Sample.trips)))
  = stations_screen (repeat (Str (py "Summer")) 40) (repeat (Num 1200) 40)
      [(Str (py "B"), 25); (Str (py "A"), 10); (Str (py "C"), 5)].
Proof. vm_compute. reflexivity. Qed.

(** The weather page, unlike the stations page, writes to the source table:
    it adds the daily temperature column in place. *)
Example weather_page_writes_source :
  option_map (fun o => match o with Frame d => columns d | Grouped _ => [] end)
    (heap (snd (weather_page (fun _ => None) 0%nat (Sample.loaded Sample.trips)))
       !! 0%nat)
  = Some (Sample.header ++ [py "avgTemp_daily"]).
Proof. vm_compute. reflexivity. Qed.

(** * Further properties of the script *)

(** ** The shape of a label *)

Section LabelShape.

Implicit Types (s t : pystr) (n : Z) (c : N).

Lemma rstrip_split s :
  exists ws, s = rstrip s ++ ws /\ Forall (fun c => isspace c = true) ws.
Proof.
  induction s as [|c s (ws & Hs & Hws)]; [exists []; split; [reflexivity|constructor]|].
  simpl. destruct (rstrip s) as [|x r] eqn:E.
  - simpl in Hs. subst ws. destruct (isspace c) eqn:Ec.
    + exists (c :: s). split; [reflexivity|]. now constructor.
    + exists s. split; [reflexivity|assumption].
  - exists ws. split; [|assumption]. simpl. now rewrite Hs at 1.
Qed.

Lemma rstrip_last_not_space s t c : rstrip s = t ++ [c] -> isspace c = false.
Proof.
  revert t. induction s as [|a s IH]; intros t H; simpl in H.
  - now destruct t.
  - destruct (rstrip s) as [|x r] eqn:E.
    + destruct (isspace a) eqn:Ea; [now destruct t|].
      destruct t as [|b t]; [now injection H as <-|].
      injection H as _ H. now destruct t.
    + destruct t as [|b t]; [discriminate|].
      injection H as _ H. exact (IH t H).
Qed.

End LabelShape.

(** A truncated label is a prefix of the name, of at most [n - 1]
    characters and not ending in white space, followed by the ellipsis. *)
Theorem shorten_truncated_shape (s : pystr) (n : Z) :
  1 <= n -> n < len s ->
  exists t rest,
    shorten s n = t ++ [ellipsis]
    /\ s = t ++ rest
    /\ len t <= n - 1
    /\ (forall t' c, t = t' ++ [c] -> isspace c = false).
Proof.
  intros Hn Hlen. rewrite shorten_beyond, slice_to_nonneg by lia.
  set (p := firstn (Z.to_nat (n - 1)) s).
  destruct (rstrip_split p) as (ws & Hp & _).
  exists (rstrip p), (ws ++ skipn (Z.to_nat (n - 1)) s).
  split; [reflexivity|]. split; [|split].
  - rewrite List.app_assoc, <- Hp. unfold p. symmetry. apply List.firstn_skipn.
  - pose proof (len_rstrip_firstn s (Z.to_nat (n - 1))). fold p in H. lia.
  - intros t' c H. eapply rstrip_last_not_space. exact H.
Qed.

Lemma shorten_truncated_shape_witness :
  exists t rest,
    shorten (py "Hoboken Terminal - River St & Hudson Pl") 28 = t ++ [ellipsis]
    /\ py "Hoboken Terminal - River St & Hudson Pl" = t ++ rest
    /\ len t <= 28 - 1
    /\ (forall t' c, t = t' ++ [c] -> isspace c = false).
Proof.
  apply (shorten_truncated_shape (py "Hoboken Terminal - River St & Hudson Pl") 28).
  - lia.
  - reflexivity.
Defined.

(** For a positive length the label is the name itself exactly when the
    name fits. *)
Theorem shorten_unchanged_iff_fits (s : pystr) (n : Z) :
  1 <= n -> (shorten s n = s <-> len s <= n).
Proof.
  intros Hn. split; [|apply shorten_within].
  intros H. destruct (Z.leb_spec (len s) n) as [|Hlt]; [assumption|].
  rewrite shorten_beyond, slice_to_nonneg in H by lia.
  pose proof (len_rstrip_firstn s (Z.to_nat (n - 1))) as Hl.
  apply (f_equal len) in H. rewrite len_app_ellipsis in H. lia.
Qed.

Lemma shorten_unchanged_iff_fits_witness :
  shorten (py "Grove St PATH") 28 = py "Grove St PATH" <-> len (py "Grove St PATH") <= 28.
Proof. apply shorten_unchanged_iff_fits. lia. Defined.

(** ** Which column wins the detection *)

Section LeftmostFacts.

Context {A : Type} (f : A -> bool).

Lemma filter_head_split (l : list A) (c : A) (rest : list A) :
  List.filter f l = c :: rest ->
  exists pre post, l = pre ++ c :: post
                   /\ Forall (fun x => f x = false) pre /\ f c = true.
Proof.
  induction l as [|y l IH]; simpl; [discriminate|].
  destruct (f y) eqn:E.
  - intros [= -> _]. exists [], l. repeat split; [constructor|assumption].
  - intros H. destruct (IH H) as (pre & post & -> & Hpre & Hc).
    exists (y :: pre), post. repeat split; [now constructor|assumption].
Qed.

Lemma find_split (l : list A) (c : A) :
  List.find f l = Some c ->
  exists pre post, l = pre ++ c :: post
                   /\ Forall (fun x => f x = false) pre /\ f c = true.
Proof.
  induction l as [|y l IH]; simpl; [discriminate|].
  destruct (f y) eqn:E.
  - intros [= ->]. exists [], l. repeat split; [constructor|assumption].
  - intros H. destruct (IH H) as (pre & post & -> & Hpre & Hc).
    exists (y :: pre), post. repeat split; [now constructor|assumption].
Qed.

End LeftmostFacts.

(** The detected column is the leftmost column whose name contains both
    "start" and "station"; only when the header has no such column is it
    the leftmost column whose name contains "station" or "name". *)
Theorem station_col_leftmost (cols : list pystr) (c : pystr) :
  station_col cols = Some c ->
  exists pre post,
    cols = pre ++ c :: post
    /\ ((is_candidate c = true
         /\ Forall (fun x => is_candidate x = false) pre)
        \/ (Forall (fun x => is_candidate x = false) cols
            /\ is_fallback c = true
            /\ Forall (fun x => is_fallback x = false) pre)).
Proof.
  unfold station_col.
  destruct (List.filter is_candidate cols) as [|c' rest] eqn:E.
  - intros H. destruct (find_split _ _ _ H) as (pre & post & Hc & Hpre & Hf).
    exists pre, post. split; [exact Hc|]. right. split; [|now split].
    apply List.Forall_forall. now apply filter_nil_iff.
  - intros [= <-].
    destruct (filter_head_split _ _ _ _ E) as (pre & post & Hc & Hpre & Hf).
    exists pre, post. split; [exact Hc|]. left. now split.
Qed.

Lemma station_col_leftmost_witness :
  exists pre post,
    [py "end_station_name"; py "start_station_id"; py "start_station_name"]
    = pre ++ py "start_station_id" :: post
    /\ ((is_candidate (py "start_station_id") = true
         /\ Forall (fun x => is_candidate x = false) pre)
        \/ (Forall (fun x => is_candidate x = false)
              [py "end_station_name"; py "start_station_id"; py "start_station_name"]
            /\ is_fallback (py "start_station_id") = true
            /\ Forall (fun x => is_fallback x = false) pre)).
Proof.
  apply (station_col_leftmost
           [py "end_station_name"; py "start_station_id"; py "start_station_name"]
           (py "start_station_id")).
  reflexivity.
Defined.

(** ** What the ranking keeps and in which order *)

Section RankingMore.

Implicit Types (g : list (cell * Z)) (n : nat) (v : Z).

Lemma StronglySorted_app_cross {A} (R : A -> A -> Prop) (l1 l2 : list A) :
  StronglySorted R (l1 ++ l2) -> forall x y, In x l1 -> In y l2 -> R x y.
Proof.
  induction l1 as [|a l1 IH]; simpl; intros H x y Hx Hy; [contradiction|].
  inversion H as [|? ? Hs Ha]; subst. destruct Hx as [<-|Hx].
  - rewrite List.Forall_forall in Ha. apply Ha, List.in_or_app. now right.
  - now apply IH.
Qed.

Lemma by_value_desc_sorted g :
  StronglySorted by_value_desc (sort_by (fun x y => snd y <=? snd x) g).
Proof.
  eapply StronglySorted_weaken; [|apply sort_by_sorted].
  - intros a b H. unfold by_value_desc. simpl in H. lia.
  - intros a b H. simpl in *. lia.
  - intros a b c H1 H2. simpl in *. lia.
Qed.

(** Inserting a row does not move the rows of another value, and puts the
    row in front of the rows of its own value. *)
Lemma insert_by_filter_value (x : cell * Z) g v :
  List.filter (fun r => snd r =? v)
    (insert_by (fun a b => snd b <=? snd a) x g)
  = List.filter (fun r => snd r =? v) (x :: g).
Proof.
  induction g as [|y g IH]; [reflexivity|].
  simpl insert_by. destruct (Z.leb_spec (snd y) (snd x)) as [Hle|Hgt];
    [reflexivity|].
  simpl List.filter in *. rewrite IH.
  destruct (Z.eqb_spec (snd x) v) as [Hx|Hx];
    destruct (Z.eqb_spec (snd y) v) as [Hy|Hy]; try reflexivity. lia.
Qed.

Lemma sort_by_filter_value g v :
  List.filter (fun r => snd r =? v) (sort_by (fun a b => snd b <=? snd a) g)
  = List.filter (fun r => snd r =? v) g.
Proof.
  induction g as [|x g IH]; [reflexivity|].
  simpl sort_by. rewrite insert_by_filter_value. simpl. now rewrite IH.
Qed.

Lemma filter_firstn_prefix {A} (f : A -> bool) (n : nat) (l : list A) :
  exists rest, List.filter f l = List.filter f (firstn n l) ++ rest.
Proof.
  exists (List.filter f (skipn n l)).
  now rewrite <- List.filter_app, List.firstn_skipn.
Qed.

Lemma sum_values_nonneg g :
  Forall (fun kv => 0 <= snd kv) g -> 0 <= sum_values g.
Proof. induction 1 as [|kv g Hkv H IH]; simpl; lia. Qed.

End RankingMore.

(** [nlargest] returns the rows of largest count: with the rows it leaves
    out it makes up the grouped frame, no row left out has a larger count
    than a row kept, and it keeps [n] rows or all of them. *)
Theorem nlargest_takes_largest (n : nat) (g : list (cell * Z)) :
  List.length (nlargest n g) = Nat.min n (List.length g)
  /\ exists rest,
       Permutation (nlargest n g ++ rest) g
       /\ forall x y, In x (nlargest n g) -> In y rest -> snd y <= snd x.
Proof.
  unfold nlargest. split.
  - now rewrite List.length_firstn, sort_by_length.
  - exists (skipn n (sort_by (fun x y => snd y <=? snd x) g)). split.
    + rewrite List.firstn_skipn. apply sort_by_perm.
    + apply (StronglySorted_app_cross by_value_desc).
      rewrite List.firstn_skipn. apply by_value_desc_sorted.
Qed.

(** When the grouped frame has more than [n] rows, rows of equal count
    keep the order they have in it ([keep='first']): the rows of any one
    count in the ranking are the first such rows of the grouped frame, in
    the same order. *)
Theorem nlargest_ties_keep_order (n : nat) (g : list (cell * Z)) (v : Z) :
  (n < List.length g)%nat ->
  exists rest,
    List.filter (fun r => snd r =? v) g
    = List.filter (fun r => snd r =? v) (nlargest n g) ++ rest.
Proof.
  intros _. unfold nlargest. rewrite <- (sort_by_filter_value g v).
  apply filter_firstn_prefix.
Qed.

Lemma nlargest_ties_keep_order_witness :
  exists rest,
    List.filter (fun r => snd r =? 3)
      [(Str (py "A"), 3); (Str (py "B"), 7); (Str (py "C"), 3); (Str (py "D"), 3)]
    = List.filter (fun r => snd r =? 3)
        (nlargest 3
           [(Str (py "A"), 3); (Str (py "B"), 7); (Str (py "C"), 3);
            (Str (py "D"), 3)])
      ++ rest.
Proof.
  apply (nlargest_ties_keep_order 3
           [(Str (py "A"), 3); (Str (py "B"), 7); (Str (py "C"), 3);
            (Str (py "D"), 3)] 3).
  simpl. lia.
Defined.

(** ** The order of the grouped frame *)

Section KeyOrder.

Implicit Types (a b c : pystr) (x y z : cell).

Lemma pystr_leb_total a b : pystr_leb a b = false -> pystr_leb b a = true.
Proof.
  revert b. induction a as [|p a IH]; intros [|q b]; simpl; try congruence.
  intros H. apply orb_false_iff in H as [H1 H2].
  apply N.ltb_ge in H1. destruct (N.eqb_spec p q) as [->|Hne].
  - simpl in H2. rewrite N.eqb_refl, (IH _ H2). apply orb_true_r.
  - apply orb_true_iff. left. apply N.ltb_lt. lia.
Qed.

Lemma pystr_leb_trans a b c :
  pystr_leb a b = true -> pystr_leb b c = true -> pystr_leb a c = true.
Proof.
  revert b c. induction a as [|p a IH]; intros [|q b] [|r c]; simpl;
    try congruence.
  intros H1 H2. apply orb_true_iff in H1, H2. apply orb_true_iff.
  destruct H1 as [H1|H1], H2 as [H2|H2];
    rewrite ?andb_true_iff, ?N.ltb_lt, ?N.eqb_eq in *.
  - left. lia.
  - left. destruct H2 as [<- _]. exact H1.
  - left. destruct H1 as [-> _]. exact H2.
  - right. destruct H1 as [-> H1], H2 as [-> H2]. split; [reflexivity|].
    eapply IH; eassumption.
Qed.

Lemma cell_leb_total x y : cell_leb x y = false -> cell_leb y x = true.
Proof.
  destruct x, y; simpl; try congruence.
  - intros H. apply Z.leb_le. apply Z.leb_gt in H. lia.
  - apply pystr_leb_total.
Qed.

Lemma cell_leb_trans x y z :
  cell_leb x y = true -> cell_leb y z = true -> cell_leb x z = true.
Proof.
  destruct x, y, z; simpl; try congruence.
  - intros H1 H2. apply Z.leb_le. apply Z.leb_le in H1, H2. lia.
  - apply pystr_leb_trans.
Qed.

End KeyOrder.

(** The grouped frame lists every present key once, in increasing order of
    key, and no missing key ([sort=True], [dropna=True]). *)
Theorem groupby_sum_keys_increasing (keys vals : list cell) :
  StronglySorted (fun a b => cell_leb a b = true)
    (List.map fst (groupby_sum keys vals))
  /\ List.NoDup (List.map fst (groupby_sum keys vals))
  /\ (forall k, In k (List.map fst (groupby_sum keys vals))
               <-> In k keys /\ notna k = true).
Proof.
  assert (E : List.map fst (groupby_sum keys vals)
              = sort_by cell_leb (unique (List.filter notna keys))).
  { unfold groupby_sum. rewrite List.map_map. simpl. apply List.map_id. }
  rewrite E. split; [|split].
  - apply sort_by_sorted; [apply cell_leb_total|apply cell_leb_trans].
  - apply group_keys_NoDup.
  - intros k. apply group_keys_In.
Qed.

(** ** The chart of the stations page *)

Section ChartFacts.

Implicit Types (g : list (cell * Z)) (keys : list cell) (s : pystr).

Lemma tick_labels_length g : List.length (tick_labels g) = List.length g.
Proof. apply List.length_map. Qed.

Lemma tick_labels_fit g : Forall (fun l => len l <= 28) (tick_labels g).
Proof.
  unfold tick_labels. apply List.Forall_forall. intros l Hl.
  apply List.in_map_iff in Hl as (kv & <- & _). apply shorten_len_bound. lia.
Qed.

Lemma station_counts_length keys :
  List.length (station_counts keys)
  = List.length (unique (List.filter notna keys)).
Proof.
  unfold station_counts, groupby_sum. now rewrite List.length_map, sort_by_length.
Qed.

Lemma station_counts_positive keys :
  Forall (fun kv => 1 <= snd kv) (station_counts keys).
Proof.
  apply List.Forall_forall. intros [k n] Hin.
  apply groupby_sum_In in Hin as (Hk & _ & ->). simpl.
  apply (count_occ_In cell_eq_dec) in Hk. lia.
Qed.

Lemma nlargest_rest n g :
  Permutation (nlargest n g ++ skipn n (sort_by (fun x y => snd y <=? snd x) g)) g.
Proof. unfold nlargest. rewrite List.firstn_skipn. apply sort_by_perm. Qed.

Lemma nlargest_Forall (P : cell * Z -> Prop) n g :
  Forall P g -> Forall P (nlargest n g).
Proof.
  intros H. apply List.Forall_forall. intros kv Hin.
  rewrite List.Forall_forall in H. apply H. eapply nlargest_incl. exact Hin.
Qed.

Lemma nlargest_sum_le n g :
  Forall (fun kv => 0 <= snd kv) g -> sum_values (nlargest n g) <= sum_values g.
Proof.
  intros H. rewrite <- (sum_values_perm _ _ (nlargest_rest n g)), sum_values_app.
  assert (0 <= sum_values (skipn n (sort_by (fun x y => snd y <=? snd x) g))); [|lia].
  apply sum_values_nonneg. apply List.Forall_forall. intros kv Hin.
  rewrite List.Forall_forall in H. apply H.
  apply (Permutation_in _ (sort_by_perm (fun x y => snd y <=? snd x) g)).
  rewrite <- (List.firstn_skipn n (sort_by _ g)). apply List.in_or_app. now right.
Qed.

Lemma count_le_length keys : count keys <= Z.of_nat (List.length keys).
Proof.
  unfold count. apply Nat2Z.inj_le. apply List.filter_length_le.
Qed.

End ChartFacts.

(** The bar chart of the stations page: one bar per charted station, 20 of
    them or as many as there are distinct present stations; its labels,
    counts and hover texts go together one to one; no label is longer than
    28 characters; every bar counts at least one trip; and the bars together
    count no more trips than the selection has rows with a station. *)
Theorem stations_chart_shape (df : ref) (sf : list cell) (w : world)
    (d dq : DataFrame) (rides : list cell) (c : pystr) :
  heap w !! df = Some (Frame d) ->
  query_isin (py "season") sf d = Some dq ->
  rows dq <> [] ->
  getcol (py "bike_rides_daily") dq = Some rides ->
  station_col (columns dq) = Some c ->
  exists names w' season keys top,
    stations_page df sf w = (Ret names, w')
    /\ getcol c dq = Some keys
    /\ screen w' = screen w ++ stations_screen season rides top
    /\ List.length top
       = Nat.min 20 (List.length (unique (List.filter notna keys)))
    /\ List.length (tick_labels top) = List.length top
    /\ List.length (List.map snd top) = List.length top
    /\ Forall (fun l => len l <= 28) (tick_labels top)
    /\ Forall (fun kv => 1 <= snd kv) top
    /\ sum_values top <= count keys
    /\ count keys <= Z.of_nat (List.length (rows dq)).
Proof.
  intros Hdf Hq Hrows Hrides Hc.
  destruct (stations_page_run _ _ _ _ _ _ _ Hdf Hq Hrows Hrides Hc)
    as (names & w' & gl & tl & season & keys & Hrun & _ & Hkeys & _ & _ & _ & _ & _ & _ & Hscreen).
  exists names, w', season, keys, (nlargest 20 (station_counts keys)).
  split; [exact Hrun|]. split; [exact Hkeys|]. split; [exact Hscreen|].
  split; [|split; [|split; [|split; [|split; [|split]]]]].
  - unfold nlargest.
    now rewrite List.length_firstn, sort_by_length, station_counts_length.
  - apply tick_labels_length.
  - apply List.length_map.
  - apply tick_labels_fit.
  - apply nlargest_Forall, station_counts_positive.
  - rewrite <- (groupby_sum_total keys). apply nlargest_sum_le.
    eapply List.Forall_impl; [|apply station_counts_positive].
    intros kv H. simpl in H. lia.
  - rewrite <- (getcol_length _ _ _ Hkeys). apply count_le_length.
Qed.

Lemma stations_chart_shape_witness :
  exists names w' season keys top,
    stations_page 0%nat [Str (py "Summer")] (Sample.loaded Sample.trips) = (Ret names, w')
    /\ getcol (py "start_station_name") Sample.trips = Some keys
    /\ screen w'
       = screen (Sample.loaded Sample.trips)
         ++ stations_screen season (repeat (Num 1200) 40) top
    /\ List.length top
       = Nat.min 20 (List.length (unique (List.filter notna keys)))
    /\ List.length (tick_labels top) = List.length top
    /\ List.length (List.map snd top) = List.length top
    /\ Forall (fun l => len l <= 28) (tick_labels top)
    /\ Forall (fun kv => 1 <= snd kv) top
    /\ sum_values top <= count keys
    /\ count keys <= Z.of_nat (List.length (rows Sample.trips)).
Proof.
  apply (stations_chart_shape 0%nat [Str (py "Summer")]
           (Sample.loaded Sample.trips) Sample.trips Sample.trips
           (repeat (Num 1200) 40) (py "start_station_name")).
  - reflexivity.
  - reflexivity.
  - discriminate.
  - reflexivity.
  - reflexivity.
Defined.

(** ** Columns the stations page cannot do without *)

Section MissingColumnFacts.

Implicit Types (d : DataFrame) (name : pystr).

Lemma getcol_absent name d : ~ In name (columns d) -> getcol name d = None.
Proof.
  intros H. unfold getcol.
  destruct (index_of name (columns d)) as [i|] eqn:E; [|reflexivity].
  exfalso. apply H. eapply index_of_Some_In. exact E.
Qed.

Lemma filter_all {A} (f : A -> bool) (l : list A) :
  (forall x, In x l -> f x = true) -> List.filter f l = l.
Proof.
  induction l as [|y l IH]; simpl; intros H; [reflexivity|].
  rewrite (H y (or_introl eq_refl)). f_equal. apply IH. auto.
Qed.

End MissingColumnFacts.

(** A table without a ['season'] column makes the stations page end by an
    uncaught [KeyError] before anything is rendered or created; a table
    without ['bike_rides_daily'] makes it end by [KeyError] once the
    selection matched rows, with only the season selector rendered. *)
Theorem stations_page_missing_column (df : ref) (sf : list cell) (w : world)
    (d : DataFrame) :
  heap w !! df = Some (Frame d) ->
  (~ In (py "season") (columns d) ->
     stations_page df sf w = (Raised (KeyError (py "season")), w))
  /\ (forall dq,
        query_isin (py "season") sf d = Some dq ->
        rows dq <> [] ->
        ~ In (py "bike_rides_daily") (columns d) ->
        exists season w',
          getcol (py "season") d = Some season
          /\ stations_page df sf w
             = (Raised (KeyError (py "bike_rides_daily")), w')
          /\ screen w'
             = screen w ++
               [Multiselect "Select the Season" (unique season) (unique season)]).
Proof.
  intros Hdf. split.
  - intros Hno. unfold stations_page.
    apply bind_raised. apply (run_getitem_missing _ _ _ _ Hdf).
    now apply getcol_absent.
  - intros dq Hq Hrows Hno.
    destruct (query_isin_getcol _ _ _ _ Hq) as [season Hseason].
    assert (Hr : getcol (py "bike_rides_daily") dq = None).
    { apply getcol_absent. now rewrite (query_isin_columns _ _ _ _ Hq). }
    exists season. eexists. split; [exact Hseason|].
    unfold stations_page.
    run_step (run_getitem _ _ _ _ _ Hdf Hseason).
    run_step (run_st _ _).
    set (w1 := render _ w).
    run_step (run_df_query _ _ _ _ _ w1 Hdf Hq).
    set (w2 := alloc _ w1).
    run_step (run_copy _ _ w2 (lookup_alloc_new _ w1)).
    set (l1 := fresh_ref w2). set (w3 := alloc _ w2).
    assert (H3 : heap w3 !! l1 = Some (Frame dq)) by apply lookup_alloc_new.
    run_step (run_frame_at _ _ _ H3).
    rewrite (query_isin_not_empty _ _ _ _ Hq Hrows).
    rewrite (bind_raised _ _ _ _ _ (run_getitem_missing _ _ _ _ H3 Hr)).
    split; reflexivity.
Qed.

Lemma stations_page_missing_column_witness :
  stations_page 0%nat [Str (py "Summer")]
    (Sample.loaded {| columns := [py "date"]; rows := [[Str (py "2022-07-01")]] |})
  = (Raised (KeyError (py "season")),
     Sample.loaded {| columns := [py "date"]; rows := [[Str (py "2022-07-01")]] |}).
Proof.
  refine (proj1 (stations_page_missing_column 0%nat [Str (py "Summer")]
            (Sample.loaded {| columns := [py "date"];
                              rows := [[Str (py "2022-07-01")]] |})
            {| columns := [py "date"]; rows := [[Str (py "2022-07-01")]] |} _) _).
  - reflexivity.
  - simpl. intros [H|[]]. discriminate.
Defined.

(** The selector's default, every season the column shows, selects every
    row of the table. *)
Theorem default_selection_keeps_every_row (d : DataFrame) (season : list cell) :
  getcol (py "season") d = Some season ->
  exists dq,
    query_isin (py "season") (unique season) d = Some dq
    /\ rows dq = rows d
    /\ columns dq = columns d.
Proof.
  unfold getcol, query_isin.
  destruct (index_of (py "season") (columns d)) as [i|]; [|discriminate].
  simpl. intros [= <-]. eexists. split; [reflexivity|]. simpl.
  split; [|reflexivity]. apply filter_all. intros r Hr.
  unfold isin. apply bool_decide_eq_true_2. apply list_elem_of_In.
  apply unique_In. apply List.in_map. exact Hr.
Qed.

Lemma default_selection_keeps_every_row_witness :
  exists dq,
    query_isin (py "season") (unique (repeat (Str (py "Summer")) 40)) Sample.trips
    = Some dq
    /\ rows dq = rows Sample.trips
    /\ columns dq = columns Sample.trips.
Proof.
  apply (default_selection_keeps_every_row Sample.trips
           (repeat (Str (py "Summer")) 40)).
  reflexivity.
Defined.

(** After the chart is drawn the filtered copy holds the selected rows
    with the indicator column: ['value'] is 1 in every row, replacing any
    ['value'] column the CSV had, and every other column is as selected. *)
Theorem stations_page_indicator_column (df : ref) (sf : list cell) (w : world)
    (d dq : DataFrame) (rides : list cell) (c : pystr) :
  heap w !! df = Some (Frame d) ->
  query_isin (py "season") sf d = Some dq ->
  rows dq <> [] ->
  getcol (py "bike_rides_daily") dq = Some rides ->
  station_col (columns dq) = Some c ->
  exists names w' d1,
    stations_page df sf w = (Ret names, w')
    /\ heap w' !! df1 names = Some (Frame d1)
    /\ getcol (py "value") d1 = Some (repeat (Num 1) (List.length (rows dq)))
    /\ List.length (rows d1) = List.length (rows dq)
    /\ (forall name, name <> py "value" -> getcol name d1 = getcol name dq)
    /\ (forall name, In name (columns dq) -> In name (columns d1)).
Proof.
  intros Hdf Hq Hrows Hrides Hc.
  destruct (stations_page_run _ _ _ _ _ _ _ Hdf Hq Hrows Hrides Hc)
    as (names & w' & gl & tl & season & keys & Hrun & _ & _ & _ & _ & _ & H1 & _).
  exists names, w'. eexists. split; [exact Hrun|]. split; [exact H1|].
  unfold setcol_scalar. split; [|split; [|split]].
  - apply getcol_setcol, List.repeat_length.
  - apply setcol_rows_length.
  - intros name Hne. now apply getcol_setcol_other.
  - intros name Hin. unfold setcol.
    destruct (index_of (py "value") (columns dq)); simpl; [assumption|].
    apply List.in_or_app. now left.
Qed.

Lemma stations_page_indicator_column_witness :
  exists names w' d1,
    stations_page 0%nat [Str (py "Summer")] (Sample.loaded Sample.trips) = (Ret names, w')
    /\ heap w' !! df1 names = Some (Frame d1)
    /\ getcol (py "value") d1 = Some (repeat (Num 1) (List.length (rows Sample.trips)))
    /\ List.length (rows d1) = List.length (rows Sample.trips)
    /\ (forall name, name <> py "value" -> getcol name d1 = getcol name Sample.trips)
    /\ (forall name, In name (columns Sample.trips) -> In name (columns d1)).
Proof.
  apply (stations_page_indicator_column 0%nat [Str (py "Summer")]
           (Sample.loaded Sample.trips) Sample.trips Sample.trips
           (repeat (Num 1200) 40) (py "start_station_name")).
  - reflexivity.
  - reflexivity.
  - discriminate.
  - reflexivity.
  - reflexivity.
Defined.

(** ** Missing readings under the normalization *)

Section MissingReadings.

Context {num : Type}.
Variable sub : num -> num -> num.
Implicit Types (s : series (num := num)) (p : option num).

Lemma fillna_diff_from_missing s p (i : nat) :
  fillna (diff_from sub p s) s !! i = Some None <-> s !! i = Some None.
Proof.
  revert p i. induction s as [|x s IH]; intros p i; [reflexivity|].
  simpl. destruct (delta sub p x) as [dlt|] eqn:E.
  - destruct i as [|i]; simpl; [|apply IH].
    unfold delta in E. destruct p, x; try discriminate. split; discriminate.
  - destruct i as [|i]; simpl; [reflexivity|apply IH].
Qed.

End MissingReadings.

(** The normalization neither drops nor invents readings: the daily column
    has one value per raw value, and a value is missing in it exactly where
    the raw reading is missing. *)
Theorem avgTemp_daily_keeps_missing {num : Type} (sub : num -> num -> num)
    (gtb : num -> num -> bool) (hundred : num) (s : series (num := num)) :
  List.length (avgTemp_daily sub gtb hundred s) = List.length s
  /\ forall i : nat,
       avgTemp_daily sub gtb hundred s !! i = Some None <-> s !! i = Some None.
Proof.
  unfold avgTemp_daily. destruct (cumulative gtb hundred s); [|split; reflexivity].
  destruct s as [|x s]; [split; reflexivity|]. simpl. split.
  - now rewrite fillna_diff_from_length.
  - intros [|i]; simpl; [reflexivity|]. apply fillna_diff_from_missing.
Qed.

(** ** The weather page *)

Section WeatherFacts.

Variable to_datetime : list cell -> option (list cell).
Implicit Types (w : world) (df : ref) (d : DataFrame).

Lemma put_same df (o : obj) w : heap w !! df = Some o -> put df o w = w.
Proof.
  intros H. destruct w as [h s]. unfold put. simpl in *. f_equal.
  now apply insert_id.
Qed.

Lemma put_put df (o o' : obj) w : put df o (put df o' w) = put df o w.
Proof. unfold put. simpl. f_equal. apply insert_insert_eq. Qed.

Lemma bind_assoc {A B C} (m : script A) (f : A -> script B) (k : B -> script C) w :
  bind (bind m f) k w = bind m (fun a => bind (f a) k) w.
Proof. unfold bind. now destruct (m w) as [[a| |x] w']. Qed.

Lemma run_setitem df name vals d w :
  heap w !! df = Some (Frame d) ->
  setitem df name vals w = (Ret tt, put df (Frame (setcol name vals d)) w).
Proof. intros H. unfold setitem. now run_step (run_frame_at _ _ _ H). Qed.

Lemma not_elem_absent (name : pystr) d :
  bool_decide (name ∈ columns d) = false -> getcol name d = None.
Proof.
  intros H. apply bool_decide_eq_false in H.
  apply getcol_absent. now rewrite <- list_elem_of_In.
Qed.

Lemma elem_present (name : pystr) d :
  bool_decide (name ∈ columns d) = true -> exists col, getcol name d = Some col.
Proof.
  intros H. apply bool_decide_eq_true in H.
  apply In_getcol. now rewrite <- list_elem_of_In.
Qed.

(** Lines 79-83, whatever follows them. *)
Lemma weather_dates_step {B} (k : unit -> script B) df d w :
  heap w !! df = Some (Frame d) ->
  bind (if bool_decide (py "date" ∈ columns d) then
          bind (getitem df (py "date"))
            (fun dates =>
               match to_datetime dates with
               | Some dates' => setitem df (py "date") dates'
               | None => ret tt
               end)
        else ret tt) k w
  = k tt (put df (Frame (with_dates to_datetime d)) w).
Proof.
  intros Hdf. unfold with_dates.
  destruct (bool_decide (py "date" ∈ columns d)) eqn:E.
  - destruct (elem_present _ _ E) as [dates Hd]. rewrite Hd, bind_assoc.
    run_step (run_getitem _ _ _ _ _ Hdf Hd).
    destruct (to_datetime dates) as [dates'|].
    + now run_step (run_setitem _ _ _ _ _ Hdf).
    + rewrite (put_same _ _ _ Hdf). reflexivity.
  - rewrite (not_elem_absent _ _ E), (put_same _ _ _ Hdf). reflexivity.
Qed.

(** Lines 86-90, whatever follows them. *)
Lemma weather_daily_step {B} (k : unit -> script B) df d w :
  heap w !! df = Some (Frame d) ->
  bind (if bool_decide (py "avgTemp" ∈ columns d) then
          bind (getitem df (py "avgTemp"))
            (fun temp =>
               match as_numeric temp with
               | Some t =>
                   setitem df (py "avgTemp_daily")
                     (of_numeric (avgTemp_daily Z.sub Z.gtb 100 t))
               | None => raise TypeError
               end)
        else ret tt) k w
  = match with_daily d with
    | Some d' => k tt (put df (Frame d') w)
    | None => (Raised TypeError, w)
    end.
Proof.
  intros Hdf. unfold with_daily.
  destruct (bool_decide (py "avgTemp" ∈ columns d)) eqn:E.
  - destruct (elem_present _ _ E) as [temp Ht]. rewrite Ht, bind_assoc.
    run_step (run_getitem _ _ _ _ _ Hdf Ht).
    destruct (as_numeric temp) as [t|]; simpl.
    + now run_step (run_setitem _ _ _ _ _ Hdf).
    + reflexivity.
  - rewrite (not_elem_absent _ _ E), (put_same _ _ _ Hdf). reflexivity.
Qed.

End WeatherFacts.

Section WeatherRun.

Variable to_datetime : list cell -> option (list cell).
Implicit Types (w : world) (df : ref) (d : DataFrame).

#[local] Abbreviation dated := (with_dates to_datetime).

Lemma with_dates_columns d : columns (dated d) = columns d.
Proof.
  unfold with_dates.
  destruct (getcol (py "date") d) as [dates|] eqn:E; [|reflexivity].
  destruct (to_datetime dates); [|reflexivity].
  unfold setcol. unfold getcol in E.
  destruct (index_of (py "date") (columns d)); [reflexivity|discriminate].
Qed.

Lemma with_dates_other name d :
  name <> py "date" -> getcol name (dated d) = getcol name d.
Proof.
  intros Hne. unfold with_dates. destruct (getcol (py "date") d); [|reflexivity].
  destruct (to_datetime l); [|reflexivity]. now apply getcol_setcol_other.
Qed.

Lemma with_dates_rows d : List.length (rows (dated d)) = List.length (rows d).
Proof.
  unfold with_dates. destruct (getcol (py "date") d); [|reflexivity].
  destruct (to_datetime l); [|reflexivity]. apply setcol_rows_length.
Qed.

Lemma with_dates_date d dates :
  getcol (py "date") d = Some dates ->
  (forall dates', to_datetime dates = Some dates' ->
                  List.length dates' = List.length dates) ->
  getcol (py "date") (dated d) = Some (default dates (to_datetime dates)).
Proof.
  intros Hd Hlen. unfold with_dates. rewrite Hd.
  destruct (to_datetime dates) as [dates'|] eqn:E; simpl; [|exact Hd].
  apply getcol_setcol. rewrite (Hlen _ eq_refl). eapply getcol_length. exact Hd.
Qed.

Lemma as_numeric_length temp t :
  as_numeric temp = Some t -> List.length t = List.length temp.
Proof.
  revert t. induction temp as [|c temp IH]; simpl; intros t H.
  - now injection H as <-.
  - destruct c; try discriminate; destruct (as_numeric temp) as [t'|];
      try discriminate; injection H as <-; simpl; now rewrite (IH t' eq_refl).
Qed.

(** Reading a column as numbers and writing the numbers back gives the
    column. *)
Lemma of_numeric_as_numeric temp t : as_numeric temp = Some t -> of_numeric t = temp.
Proof.
  revert t. induction temp as [|c temp IH]; simpl; intros t H.
  - now injection H as <-.
  - destruct c; try discriminate; destruct (as_numeric temp) as [t'|];
      try discriminate; injection H as <-; simpl; now rewrite (IH t' eq_refl).
Qed.

Lemma daily_length (t : series (num := Z)) :
  List.length (of_numeric (avgTemp_daily Z.sub Z.gtb 100 t)) = List.length t.
Proof.
  unfold of_numeric. rewrite List.length_map. unfold avgTemp_daily.
  destruct (cumulative Z.gtb 100 t); [|reflexivity].
  destruct t as [|x t]; [reflexivity|]. simpl. now rewrite fillna_diff_from_length.
Qed.

(** The page from a loaded table, case by case. *)
Lemma weather_page_closed df d w :
  heap w !! df = Some (Frame d) ->
  weather_page to_datetime df w
  = match with_daily (dated d) with
    | None => (Raised TypeError, put df (Frame (dated d)) w)
    | Some d' =>
        match getcol (py "date") d' with
        | None => (Raised (KeyError (py "date")), put df (Frame d') w)
        | Some x =>
            match getcol (py "bike_rides_daily") d' with
            | None => (Raised (KeyError (py "bike_rides_daily")),
                       put df (Frame d') w)
            | Some rides =>
                match getcol (py "avgTemp_daily") d' with
                | None => (Raised (KeyError (py "avgTemp_daily")),
                           put df (Frame d') w)
                | Some temp =>
                    (Ret tt,
                     render (Markdown "Using this information we can assume a majority of bike shortages occur during this time period.")
                       (render (Markdown "This chart shows there is a clear correlation between bike trips and the temperature.")
                          (render (LineChart x rides temp)
                             (put df (Frame d') w))))
                end
            end
        end
    end.
Proof.
  intros Hdf. unfold weather_page.
  run_step (run_frame_at _ _ _ Hdf).
  rewrite (weather_dates_step to_datetime _ _ _ _ Hdf).
  set (w1 := put df (Frame (dated d)) w).
  assert (H1 : heap w1 !! df = Some (Frame (dated d))) by apply lookup_put_eq.
  run_step (run_frame_at _ _ _ H1).
  rewrite (weather_daily_step _ _ _ _ H1).
  destruct (with_daily (dated d)) as [d'|]; [|reflexivity].
  unfold w1. rewrite put_put. set (w2 := put df (Frame d') w).
  assert (H2 : heap w2 !! df = Some (Frame d')) by apply lookup_put_eq.
  destruct (getcol (py "date") d') as [x|] eqn:Ex.
  2:{ apply bind_raised. now apply (run_getitem_missing _ _ _ _ H2). }
  run_step (run_getitem _ _ _ _ _ H2 Ex).
  destruct (getcol (py "bike_rides_daily") d') as [rides|] eqn:Er.
  2:{ apply bind_raised. now apply (run_getitem_missing _ _ _ _ H2). }
  run_step (run_getitem _ _ _ _ _ H2 Er).
  destruct (getcol (py "avgTemp_daily") d') as [temp|] eqn:Et.
  2:{ apply bind_raised. now apply (run_getitem_missing _ _ _ _ H2). }
  run_step (run_getitem _ _ _ _ _ H2 Et).
  do 2 run_step (run_st _ _). reflexivity.
Qed.

End WeatherRun.

(** On a table with the date, the ride count and a temperature of whole
    numbers the weather page draws one line chart of the dates, the rides
    and the daily temperature, then its two texts, and ends normally.  The
    daily temperature it charts is the column it has written into the
    source table itself, ['avgTemp_daily'], one value per row; no row is
    added or lost and every column but that one and ['date'] is as before.
    When the temperature is not cumulative the daily column is the raw
    column; when it is, and the readings are in the range where pandas
    subtracts exactly, it is the first differences with the gaps filled. *)
Theorem weather_page_chart (to_datetime : list cell -> option (list cell))
    (df : ref) (w : world) (d : DataFrame) (dates rides temp : list cell)
    (t : series (num := Z)) :
  heap w !! df = Some (Frame d) ->
  getcol (py "date") d = Some dates ->
  getcol (py "bike_rides_daily") d = Some rides ->
  getcol (py "avgTemp") d = Some temp ->
  as_numeric temp = Some t ->
  (forall dates', to_datetime dates = Some dates' ->
                  List.length dates' = List.length dates) ->
  exists w' d' daily,
    weather_page to_datetime df w = (Ret tt, w')
    /\ screen w'
       = screen w ++
         [ LineChart (default dates (to_datetime dates)) rides daily;
           Markdown "This chart shows there is a clear correlation between bike trips and the temperature.";
           Markdown "Using this information we can assume a majority of bike shortages occur during this time period." ]
    /\ heap w' !! df = Some (Frame d')
    /\ getcol (py "avgTemp_daily") d' = Some daily
    /\ List.length daily = List.length temp
    /\ List.length (rows d') = List.length (rows d)
    /\ (forall name, name <> py "date" -> name <> py "avgTemp_daily" ->
                     getcol name d' = getcol name d)
    /\ (cumulative Z.gtb 100 t = false -> daily = temp)
    /\ (cumulative Z.gtb 100 t = true -> exact_range t ->
        daily = of_numeric (fillna (diff Z.sub t) t)).
Proof.
  intros Hdf Hdates Hrides Htemp Ht Hlen.
  set (daily := of_numeric (avgTemp_daily Z.sub Z.gtb 100 t)).
  set (d0 := with_dates to_datetime d).
  set (d' := setcol (py "avgTemp_daily") daily d0).
  assert (Hd : with_daily d0 = Some d').
  { unfold with_daily, d0. rewrite with_dates_other by discriminate.
    rewrite Htemp, Ht. reflexivity. }
  assert (Hx : getcol (py "date") d' = Some (default dates (to_datetime dates))).
  { unfold d'. rewrite getcol_setcol_other by discriminate.
    now apply with_dates_date. }
  assert (Hr : getcol (py "bike_rides_daily") d' = Some rides).
  { unfold d', d0. rewrite getcol_setcol_other by discriminate.
    now rewrite with_dates_other by discriminate. }
  assert (Hl : List.length daily = List.length temp).
  { unfold daily. now rewrite daily_length, (as_numeric_length _ _ Ht). }
  assert (Hy : getcol (py "avgTemp_daily") d' = Some daily).
  { unfold d'. apply getcol_setcol. unfold d0.
    rewrite Hl, with_dates_rows. eapply getcol_length. exact Htemp. }
  exists (render (Markdown "Using this information we can assume a majority of bike shortages occur during this time period.")
            (render (Markdown "This chart shows there is a clear correlation between bike trips and the temperature.")
               (render (LineChart (default dates (to_datetime dates)) rides daily)
                  (put df (Frame d') w)))), d', daily.
  split.
  { rewrite (weather_page_closed _ _ _ _ Hdf). fold d0.
    now rewrite Hd, Hx, Hr, Hy. }
  split; [simpl; now rewrite <- !List.app_assoc|].
  split; [apply lookup_put_eq|]. split; [exact Hy|]. split; [exact Hl|].
  split; [unfold d', d0; now rewrite setcol_rows_length, with_dates_rows|].
  split; [|split].
  - intros name H1 H2. unfold d', d0.
    now rewrite getcol_setcol_other, with_dates_other.
  - intros Hc. unfold daily, avgTemp_daily. rewrite Hc.
    now apply of_numeric_as_numeric.
  - intros Hc _. unfold daily, avgTemp_daily. now rewrite Hc.
Qed.

Lemma weather_page_chart_witness :
  exists w' d' daily,
    weather_page (fun _ => None) 0%nat (Sample.loaded Sample.trips) = (Ret tt, w')
    /\ screen w'
       = screen (Sample.loaded Sample.trips) ++
         [ LineChart (default (repeat (Str (py "2022-07-01")) 40) None)
             (repeat (Num 1200) 40) daily;
           Markdown "This chart shows there is a clear correlation between bike trips and the temperature.";
           Markdown "Using this information we can assume a majority of bike shortages occur during this time period." ]
    /\ heap w' !! 0%nat = Some (Frame d')
    /\ getcol (py "avgTemp_daily") d' = Some daily
    /\ List.length daily = List.length (repeat (Num 24) 40)
    /\ List.length (rows d') = List.length (rows Sample.trips)
    /\ (forall name, name <> py "date" -> name <> py "avgTemp_daily" ->
                     getcol name d' = getcol name Sample.trips)
    /\ (cumulative Z.gtb 100 (repeat (Some 24) 40) = false ->
        daily = repeat (Num 24) 40)
    /\ (cumulative Z.gtb 100 (repeat (Some 24) 40) = true ->
        exact_range (repeat (Some 24) 40) ->
        daily = of_numeric (fillna (diff Z.sub (repeat (Some 24) 40))
                              (repeat (Some 24) 40))).
Proof.
  apply (weather_page_chart (fun _ => None) 0%nat (Sample.loaded Sample.trips)
           Sample.trips (repeat (Str (py "2022-07-01")) 40)
           (repeat (Num 1200) 40) (repeat (Num 24) 40) (repeat (Some 24) 40)).
  - reflexivity.
  - reflexivity.
  - reflexivity.
  - reflexivity.
  - reflexivity.
  - discriminate.
Defined.

(** The guard on ['avgTemp'] does not save the chart: with neither an
    ['avgTemp'] nor an ['avgTemp_daily'] column the page ends by an uncaught
    [KeyError] when the chart reads the daily temperature, and nothing is
    rendered. *)
Theorem weather_page_needs_temperature
    (to_datetime : list cell -> option (list cell))
    (df : ref) (w : world) (d : DataFrame) :
  heap w !! df = Some (Frame d) ->
  In (py "date") (columns d) ->
  In (py "bike_rides_daily") (columns d) ->
  ~ In (py "avgTemp") (columns d) ->
  ~ In (py "avgTemp_daily") (columns d) ->
  fst (weather_page to_datetime df w) = Raised (KeyError (py "avgTemp_daily"))
  /\ screen (snd (weather_page to_datetime df w)) = screen w.
Proof.
  intros Hdf Hdate Hrides Hno Hno'.
  set (d0 := with_dates to_datetime d).
  assert (Hcols : columns d0 = columns d) by apply with_dates_columns.
  assert (Hd : with_daily d0 = Some d0).
  { unfold with_daily. rewrite getcol_absent; [reflexivity|]. now rewrite Hcols. }
  rewrite <- Hcols in Hdate, Hrides, Hno'.
  destruct (In_getcol _ _ Hdate) as [x Hx].
  destruct (In_getcol _ _ Hrides) as [r Hr].
  rewrite (weather_page_closed _ _ _ _ Hdf). fold d0.
  rewrite Hd, Hx, Hr, (getcol_absent _ _ Hno'). split; reflexivity.
Qed.

Lemma weather_page_needs_temperature_witness :
  fst (weather_page (fun _ => None) 0%nat (Sample.loaded Sample.trips_no_station))
  = Raised (KeyError (py "avgTemp_daily"))
  /\ screen (snd (weather_page (fun _ => None) 0%nat
                    (Sample.loaded Sample.trips_no_station)))
     = screen (Sample.loaded Sample.trips_no_station).
Proof.
  apply (weather_page_needs_temperature (fun _ => None) 0%nat
           (Sample.loaded Sample.trips_no_station) Sample.trips_no_station).
  - reflexivity.
  - simpl. auto.
  - simpl. auto.
  - simpl. intros [H|[H|[H|[]]]]; discriminate.
  - simpl. intros [H|[H|[H|[]]]]; discriminate.
Defined.

(** The guard on ['date'] does not save the chart either: without a
    ['date'] column the page renders nothing.  With a text cell in the
    temperature it ends by [TypeError], the table untouched; otherwise it
    ends by an uncaught [KeyError] for ['date'], and a temperature column
    has by then left its daily column in the source table, the rows and
    every other column as they were. *)
Theorem weather_page_needs_date (to_datetime : list cell -> option (list cell))
    (df : ref) (w : world) (d : DataFrame) :
  heap w !! df = Some (Frame d) ->
  ~ In (py "date") (columns d) ->
  screen (snd (weather_page to_datetime df w)) = screen w
  /\ (forall temp,
        getcol (py "avgTemp") d = Some temp -> as_numeric temp = None ->
        fst (weather_page to_datetime df w) = Raised TypeError
        /\ heap (snd (weather_page to_datetime df w)) !! df = Some (Frame d))
  /\ (getcol (py "avgTemp") d = None ->
      fst (weather_page to_datetime df w) = Raised (KeyError (py "date"))
      /\ heap (snd (weather_page to_datetime df w)) !! df = Some (Frame d))
  /\ (forall temp t,
        getcol (py "avgTemp") d = Some temp -> as_numeric temp = Some t ->
        fst (weather_page to_datetime df w) = Raised (KeyError (py "date"))
        /\ exists d' daily,
             heap (snd (weather_page to_datetime df w)) !! df = Some (Frame d')
             /\ getcol (py "avgTemp_daily") d' = Some daily
             /\ List.length daily = List.length temp
             /\ List.length (rows d') = List.length (rows d)
             /\ (forall name, name <> py "avgTemp_daily" ->
                              getcol name d' = getcol name d)).
Proof.
  intros Hdf Hno.
  assert (Hd0 : with_dates to_datetime d = d).
  { unfold with_dates. now rewrite getcol_absent. }
  rewrite (weather_page_closed _ _ _ _ Hdf), Hd0.
  split; [|split; [|split]].
  - destruct (with_daily d) as [d'|] eqn:Hd; [|reflexivity].
    assert (Hx : getcol (py "date") d' = None).
    { unfold with_daily in Hd. destruct (getcol (py "avgTemp") d) as [temp|].
      - destruct (as_numeric temp); [|discriminate]. injection Hd as <-.
        rewrite getcol_setcol_other by discriminate. now apply getcol_absent.
      - injection Hd as <-. now apply getcol_absent. }
    now rewrite Hx.
  - intros temp Htemp Ht.
    assert (Hd : with_daily d = None)
      by (unfold with_daily; now rewrite Htemp, Ht).
    rewrite Hd. split; [reflexivity|apply lookup_put_eq].
  - intros Htemp.
    assert (Hd : with_daily d = Some d)
      by (unfold with_daily; now rewrite Htemp).
    rewrite Hd, (getcol_absent _ _ Hno).
    split; [reflexivity|apply lookup_put_eq].
  - intros temp t Htemp Ht.
    set (daily := of_numeric (avgTemp_daily Z.sub Z.gtb 100 t)).
    assert (Hd : with_daily d = Some (setcol (py "avgTemp_daily") daily d))
      by (unfold with_daily; now rewrite Htemp, Ht).
    assert (Hl : List.length daily = List.length temp).
    { unfold daily. now rewrite daily_length, (as_numeric_length _ _ Ht). }
    assert (Hx : getcol (py "date") (setcol (py "avgTemp_daily") daily d) = None).
    { rewrite getcol_setcol_other by discriminate. now apply getcol_absent. }
    rewrite Hd, Hx.
    split; [reflexivity|].
    exists (setcol (py "avgTemp_daily") daily d), daily.
    split; [apply lookup_put_eq|]. split; [|split; [exact Hl|split]].
    + apply getcol_setcol. rewrite Hl. eapply getcol_length. exact Htemp.
    + apply setcol_rows_length.
    + intros name Hne. now apply getcol_setcol_other.
Qed.

Lemma weather_page_needs_date_witness :
  screen (snd (weather_page (fun _ => None) 0%nat
                 (Sample.loaded {| columns := [py "avgTemp"]; rows := [[Num 120]] |})))
  = screen (Sample.loaded {| columns := [py "avgTemp"]; rows := [[Num 120]] |}).
Proof.
  refine (proj1 (weather_page_needs_date (fun _ => None) 0%nat
                   (Sample.loaded {| columns := [py "avgTemp"]; rows := [[Num 120]] |})
                   {| columns := [py "avgTemp"]; rows := [[Num 120]] |} _ _)).
  - reflexivity.
  - simpl. intros [H|[]]. discriminate.
Defined.

(** ** The whole run *)

Section MainFacts.

Variable to_datetime : list cell -> option (list cell).
Implicit Types (s : session) (w : world) (d : DataFrame).

Lemma run_new (o : obj) w : new o w = (Ret (fresh_ref w), alloc o w).
Proof. reflexivity. Qed.

(** The start of every run with the primary file in place: the title, the
    sidebar, the table loaded, the optional table loaded or not. *)
Lemma main_loaded s w d :
  reduced_data_to_plot_7 s = Contents d ->
  exists df w1,
    heap w1 !! df = Some (Frame d)
    /\ screen w1
       = screen w ++
         [ Title "Citi Bike Strategy Dashboard";
           SidebarTitle "Aspect Selector";
           Selectbox "Select an aspect of the analysis" ]
    /\ (forall l o, heap w !! l = Some o -> heap w1 !! l = Some o)
    /\ main to_datetime s w
       = match page s with
         | IntroPage => intro_page s w1
         | WeatherPage => weather_page to_datetime df w1
         | StationsPage =>
             bind (stations_page df (season_filter s)) (fun _ => ret tt) w1
         | MapPage => map_page s w1
         | RecommendationsPage => recommendations_page s w1
         end.
Proof.
  intros H. unfold main. do 3 run_step (run_st _ _).
  set (w0 := render _ (render _ (render _ w))).
  assert (Hs : screen w0 = screen w ++
                 [ Title "Citi Bike Strategy Dashboard";
                   SidebarTitle "Aspect Selector";
                   Selectbox "Select an aspect of the analysis" ])
    by (simpl; now rewrite <- !List.app_assoc).
  unfold load_primary. rewrite H. run_step (run_new _ _).
  unfold load_top20. destruct (top20 s) as [| |d2].
  1,2: exists (fresh_ref w0), (alloc (Frame d) w0);
       split; [apply lookup_alloc_new|]; split; [exact Hs|];
       split; [intros l o Hl; now apply lookup_alloc_old|];
       now destruct (page s).
  rewrite bind_assoc. run_step (run_new _ _).
  exists (fresh_ref w0), (alloc (Frame d2) (alloc (Frame d) w0)).
  split; [apply lookup_alloc_old, lookup_alloc_new|]. split; [exact Hs|].
  split; [intros l o Hl; now do 2 apply lookup_alloc_old|].
  now destruct (page s).
Qed.

End MainFacts.

(** From the CSV to the chart: with the primary file in place, the
    stations page picked, and a selection that matches rows of a table with
    the ride count and a column of station names, the run ends normally
    having rendered the title, the sidebar, the season selector, the total
    and one bar chart, whether or not the optional [top20.csv] is there.
    The bars are named stations with their numbers of selected rows, in
    decreasing order of that number, 20 of them or all there are, and no
    station left out has more rows than a station charted. *)
Theorem main_stations_chart (to_datetime : list cell -> option (list cell))
    (s : session) (w : world) (d dq : DataFrame) (rides keys : list cell)
    (c : pystr) :
  reduced_data_to_plot_7 s = Contents d ->
  page s = StationsPage ->
  query_isin (py "season") (season_filter s) d = Some dq ->
  rows dq <> [] ->
  getcol (py "bike_rides_daily") dq = Some rides ->
  station_col (columns dq) = Some c ->
  getcol c dq = Some keys ->
  Forall text_or_missing keys ->
  exists w' season top rest,
    main to_datetime s w = (Ret tt, w')
    /\ getcol (py "season") d = Some season
    /\ screen w'
       = screen w ++
         [ Title "Citi Bike Strategy Dashboard";
           SidebarTitle "Aspect Selector";
           Selectbox "Select an aspect of the analysis" ]
         ++ stations_screen season rides top
    /\ Permutation (top ++ rest) (station_counts keys)
    /\ StronglySorted by_value_desc top
    /\ List.length top = Nat.min 20 (List.length (station_counts keys))
    /\ (forall x y, In x top -> In y rest -> snd y <= snd x)
    /\ Forall (fun kv => is_text (fst kv)
                         /\ In (fst kv) keys
                         /\ snd kv = Z.of_nat (count_occ cell_eq_dec keys (fst kv)))
         top.
Proof.
  intros Hfile Hpage Hq Hrows Hrides Hc Hkeys Htext.
  destruct (main_loaded to_datetime s w d Hfile) as (df & w1 & Hdf & Hs & _ & Hmain).
  rewrite Hpage in Hmain.
  destruct (stations_page_run _ _ _ _ _ _ _ Hdf Hq Hrows Hrides Hc)
    as (names & w' & gl & tl & season & keys' & Hrun & Hseason & Hkeys' & _ & _ & _ & _ & _ & _ & Hscreen).
  assert (keys' = keys) as -> by congruence.
  exists w', season, (nlargest 20 (station_counts keys)),
    (skipn 20 (sort_by (fun x y => snd y <=? snd x) (station_counts keys))).
  split; [rewrite Hmain; now run_step Hrun|]. split; [exact Hseason|].
  split; [rewrite Hscreen, Hs; now rewrite <- List.app_assoc|].
  split; [apply nlargest_rest|]. split; [apply nlargest_sorted|].
  split; [unfold nlargest; now rewrite List.length_firstn, sort_by_length|].
  split.
  - unfold nlargest.
    apply (StronglySorted_app_cross by_value_desc).
    rewrite List.firstn_skipn. apply by_value_desc_sorted.
  - apply List.Forall_forall. intros [k n] Hin. simpl.
    apply nlargest_incl, groupby_sum_In in Hin as (Hk & Hna & ->).
    split; [|split; [exact Hk|reflexivity]].
    rewrite List.Forall_forall in Htext.
    destruct (Htext k Hk) as [->|Ht]; [discriminate|exact Ht].
Qed.

Lemma main_stations_chart_witness :
  exists w' season top rest,
    main (fun _ => None)
      {| page := StationsPage; season_filter := [Str (py "Summer")];
         reduced_data_to_plot_7 := Contents Sample.trips_unnamed; top20 := Missing;
         CitiBike_jpg := Missing; recs_page_jpg := Missing;
         CitiBike_Trips_html := Missing |} start
    = (Ret tt, w')
    /\ getcol (py "season") Sample.trips_unnamed = Some season
    /\ screen w'
       = screen start ++
         [ Title "Citi Bike Strategy Dashboard";
           SidebarTitle "Aspect Selector";
           Selectbox "Select an aspect of the analysis" ]
         ++ stations_screen season [Num 1200; Num 1200] top
    /\ Permutation (top ++ rest) (station_counts [Str (py "A"); NaN])
    /\ StronglySorted by_value_desc top
    /\ List.length top
       = Nat.min 20 (List.length (station_counts [Str (py "A"); NaN]))
    /\ (forall x y, In x top -> In y rest -> snd y <= snd x)
    /\ Forall (fun kv => is_text (fst kv)
                         /\ In (fst kv) [Str (py "A"); NaN]
                         /\ snd kv = Z.of_nat (count_occ cell_eq_dec
                                                 [Str (py "A"); NaN] (fst kv)))
         top.
Proof.
  apply (main_stations_chart (fun _ => None)
           {| page := StationsPage; season_filter := [Str (py "Summer")];
              reduced_data_to_plot_7 := Contents Sample.trips_unnamed;
              top20 := Missing;
              CitiBike_jpg := Missing; recs_page_jpg := Missing;
              CitiBike_Trips_html := Missing |}
           start Sample.trips_unnamed Sample.trips_unnamed
           [Num 1200; Num 1200] [Str (py "A"); NaN] (py "start_station_name")).
  - reflexivity.
  - reflexivity.
  - reflexivity.
  - discriminate.
  - reflexivity.
  - reflexivity.
  - reflexivity.
  - constructor; [right; now eexists|]. constructor; [now left|constructor].
Defined.

(** A primary file that is there but cannot be read is not caught: only
    the missing file is.  The run ends by the exception after the title and
    the sidebar, with no error message and no object created. *)
Theorem unreadable_primary_file_raises
    (to_datetime : list cell -> option (list cell)) (s : session) (w : world) :
  reduced_data_to_plot_7 s = Unreadable ->
  fst (main to_datetime s w) = Raised (OSError "reduced_data_to_plot_7.csv")
  /\ heap (snd (main to_datetime s w)) = heap w
  /\ screen (snd (main to_datetime s w))
     = screen w ++
       [ Title "Citi Bike Strategy Dashboard";
         SidebarTitle "Aspect Selector";
         Selectbox "Select an aspect of the analysis" ].
Proof.
  intros H. unfold main. do 3 run_step (run_st _ _).
  unfold load_primary. rewrite H. unfold bind, raise. simpl.
  repeat split. now rewrite <- !List.app_assoc.
Qed.

Lemma unreadable_primary_file_raises_witness :
  fst (main (fun _ => None)
         {| page := IntroPage; season_filter := [];
            reduced_data_to_plot_7 := Unreadable; top20 := Missing;
            CitiBike_jpg := Missing; recs_page_jpg := Missing;
            CitiBike_Trips_html := Missing |} start)
  = Raised (OSError "reduced_data_to_plot_7.csv").
Proof.
  refine (proj1 (unreadable_primary_file_raises (fun _ => None)
                   {| page := IntroPage; season_filter := [];
                      reduced_data_to_plot_7 := Unreadable; top20 := Missing;
                      CitiBike_jpg := Missing; recs_page_jpg := Missing;
                      CitiBike_Trips_html := Missing |} start _)).
  reflexivity.
Defined.

(** The intro page does without its picture: with the primary file in
    place it always ends normally, after its seven texts, on the picture or
    on a warning that the picture could not be loaded. *)
Theorem intro_page_survives_missing_image
    (to_datetime : list cell -> option (list cell)) (s : session) (w : world)
    (d : DataFrame) :
  reduced_data_to_plot_7 s = Contents d ->
  page s = IntroPage ->
  fst (main to_datetime s w) = Ret tt
  /\ screen (snd (main to_datetime s w))
     = screen w ++
       [ Title "Citi Bike Strategy Dashboard";
         SidebarTitle "Aspect Selector";
         Selectbox "Select an aspect of the analysis";
         Markdown "#### This dashboard aims to provide helpful insights on the expansion problems CitiBike currently faces.";
         Markdown "Right now, CitiBike runs into a situation where customers complain about bikes not being available at certain times.";
         Markdown "- Most popular stations";
         Markdown "- Weather component and bike usage";
         Markdown "- Interactive map with aggregated bike trips";
         Markdown "- Recommendations";
         Markdown "The dropdown menu on the left 'Aspect Selector' will take you to the different aspects of the analysis our team looked at.";
         match CitiBike_jpg s with
         | Contents _ => Image "CitiBike.jpg"
         | _ => Warning "Could not load image 'CitiBike.jpg'"
         end ].
Proof.
  intros Hfile Hpage.
  destruct (main_loaded to_datetime s w d Hfile) as (df & w1 & _ & Hs & _ & Hmain).
  rewrite Hmain, Hpage. unfold intro_page. do 7 run_step (run_st _ _).
  destruct (CitiBike_jpg s); simpl; rewrite Hs;
    (split; [reflexivity|now rewrite <- !List.app_assoc]).
Qed.

Lemma intro_page_survives_missing_image_witness :
  fst (main (fun _ => None)
         {| page := IntroPage; season_filter := [];
            reduced_data_to_plot_7 := Contents Sample.trips; top20 := Missing;
            CitiBike_jpg := Missing; recs_page_jpg := Missing;
            CitiBike_Trips_html := Missing |} start)
  = Ret tt.
Proof.
  refine (proj1 (intro_page_survives_missing_image (fun _ => None)
                   {| page := IntroPage; season_filter := [];
                      reduced_data_to_plot_7 := Contents Sample.trips;
                      top20 := Missing; CitiBike_jpg := Missing;
                      recs_page_jpg := Missing;
                      CitiBike_Trips_html := Missing |} start Sample.trips _ _));
    reflexivity.
Defined.

(** The recommendations page does not do without its picture: when it
    cannot be opened the run ends by the uncaught exception, with the
    page's header rendered and none of the recommendations. *)
Theorem recommendations_page_needs_image
    (to_datetime : list cell -> option (list cell)) (s : session) (w : world)
    (d : DataFrame) :
  reduced_data_to_plot_7 s = Contents d ->
  page s = RecommendationsPage ->
  recs_page_jpg s = Missing \/ recs_page_jpg s = Unreadable ->
  fst (main to_datetime s w) = Raised (OSError "recs_page.jpg")
  /\ screen (snd (main to_datetime s w))
     = screen w ++
       [ Title "Citi Bike Strategy Dashboard";
         SidebarTitle "Aspect Selector";
         Selectbox "Select an aspect of the analysis";
         Header "Conclusions and recommendations" ].
Proof.
  intros Hfile Hpage Himg.
  destruct (main_loaded to_datetime s w d Hfile) as (df & w1 & _ & Hs & _ & Hmain).
  rewrite Hmain, Hpage. unfold recommendations_page. run_step (run_st _ _).
  destruct Himg as [-> | ->]; simpl; rewrite Hs;
    (split; [reflexivity|now rewrite <- !List.app_assoc]).
Qed.

Lemma recommendations_page_needs_image_witness :
  fst (main (fun _ => None)
         {| page := RecommendationsPage; season_filter := [];
            reduced_data_to_plot_7 := Contents Sample.trips; top20 := Missing;
            CitiBike_jpg := Missing; recs_page_jpg := Missing;
            CitiBike_Trips_html := Missing |} start)
  = Raised (OSError "recs_page.jpg").
Proof.
  refine (proj1 (recommendations_page_needs_image (fun _ => None)
                   {| page := RecommendationsPage; season_filter := [];
                      reduced_data_to_plot_7 := Contents Sample.trips;
                      top20 := Missing; CitiBike_jpg := Missing;
                      recs_page_jpg := Missing;
                      CitiBike_Trips_html := Missing |} start Sample.trips _ _ _)).
  - reflexivity.
  - reflexivity.
  - left. reflexivity.
Defined.

(** The map page always ends normally.  With the HTML file it renders the
    header, the map and one text; without it, one error; and when the file
    is there but cannot be loaded, an error followed by the three texts
    that explain the map, which are rendered in no other case. *)
Theorem map_page_outcomes
    (to_datetime : list cell -> option (list cell)) (s : session) (w : world)
    (d : DataFrame) :
  reduced_data_to_plot_7 s = Contents d ->
  page s = MapPage ->
  fst (main to_datetime s w) = Ret tt
  /\ screen (snd (main to_datetime s w))
     = screen w ++
       [ Title "Citi Bike Strategy Dashboard";
         SidebarTitle "Aspect Selector";
         Selectbox "Select an aspect of the analysis";
         WriteText "Interactive map showing aggregated bike trips in New York" ]
       ++ match CitiBike_Trips_html s with
          | Contents _ =>
              [ Header "Aggregated Bike Trips in New York";
                Html "CitiBike_Trips.html";
                Markdown "Yes" ]
          | Missing =>
              [ Error "Map HTML file not found at: CitiBike_Trips.html" ]
          | Unreadable =>
              [ Error "Error loading map HTML";
                Markdown "We can see that South Waterfront Walkway - Sinatra Dr & 1 St and ending back at the same location is the most popular trip";
                Markdown "Despite the fact that Grove St PATH was far and away the most popular starting station";
                Markdown "Another thing we can see from this map is that basically all of the most popular trips take place in either Jersey City or Hoboken." ]
          end.
Proof.
  intros Hfile Hpage.
  destruct (main_loaded to_datetime s w d Hfile) as (df & w1 & _ & Hs & _ & Hmain).
  rewrite Hmain, Hpage. unfold map_page. run_step (run_st _ _).
  destruct (CitiBike_Trips_html s); simpl; rewrite Hs;
    (split; [reflexivity|now rewrite <- !List.app_assoc]).
Qed.

Lemma map_page_outcomes_witness :
  fst (main (fun _ => None)
         {| page := MapPage; season_filter := [];
            reduced_data_to_plot_7 := Contents Sample.trips; top20 := Missing;
            CitiBike_jpg := Missing; recs_page_jpg := Missing;
            CitiBike_Trips_html := Unreadable |} start)
  = Ret tt.
Proof.
  refine (proj1 (map_page_outcomes (fun _ => None)
                   {| page := MapPage; season_filter := [];
                      reduced_data_to_plot_7 := Contents Sample.trips;
                      top20 := Missing; CitiBike_jpg := Missing;
                      recs_page_jpg := Missing;
                      CitiBike_Trips_html := Unreadable |} start Sample.trips _ _));
    reflexivity.
Defined.

(** A text cell in the temperature column makes the weather page end by
    an uncaught [TypeError] at the comparison with 100: nothing is rendered
    and no daily column is written. *)
Theorem weather_page_text_temperature
    (to_datetime : list cell -> option (list cell))
    (df : ref) (w : world) (d : DataFrame) (temp : list cell) :
  heap w !! df = Some (Frame d) ->
  getcol (py "avgTemp") d = Some temp ->
  as_numeric temp = None ->
  fst (weather_page to_datetime df w) = Raised TypeError
  /\ screen (snd (weather_page to_datetime df w)) = screen w
  /\ heap (snd (weather_page to_datetime df w)) !! df
     = Some (Frame (with_dates to_datetime d)).
Proof.
  intros Hdf Htemp Ht.
  assert (Hd : with_daily (with_dates to_datetime d) = None).
  { unfold with_daily. rewrite with_dates_other by discriminate.
    now rewrite Htemp, Ht. }
  rewrite (weather_page_closed _ _ _ _ Hdf), Hd. simpl.
  repeat split. apply lookup_insert_eq.
Qed.

Lemma weather_page_text_temperature_witness :
  fst (weather_page (fun _ => None) 0%nat
         (Sample.loaded {| columns := [py "avgTemp"]; rows := [[Str (py "warm")]] |}))
  = Raised TypeError.
Proof.
  refine (proj1 (weather_page_text_temperature (fun _ => None) 0%nat
                   (Sample.loaded {| columns := [py "avgTemp"];
                                     rows := [[Str (py "warm")]] |})
                   {| columns := [py "avgTemp"]; rows := [[Str (py "warm")]] |}
                   [Str (py "warm")] _ _ _)); reflexivity.
Defined.

(** Running the stations page again on the same selection renders the same
    selector, total and chart again: the first run left nothing behind in
    the source table that could change the second. *)
Theorem stations_page_rerun_same_chart (df : ref) (sf : list cell) (w : world)
    (d dq : DataFrame) (rides : list cell) (c : pystr) :
  heap w !! df = Some (Frame d) ->
  query_isin (py "season") sf d = Some dq ->
  rows dq <> [] ->
  getcol (py "bike_rides_daily") dq = Some rides ->
  station_col (columns dq) = Some c ->
  exists names w' names' w'' rendered,
    stations_page df sf w = (Ret names, w')
    /\ stations_page df sf w' = (Ret names', w'')
    /\ screen w' = screen w ++ rendered
    /\ screen w'' = screen w' ++ rendered
    /\ heap w'' !! df = Some (Frame d).
Proof.
  intros Hdf Hq Hrows Hrides Hc.
  destruct (stations_page_run _ _ _ _ _ _ _ Hdf Hq Hrows Hrides Hc)
    as (names & w' & gl & tl & season & keys & Hrun & Hseason & Hkeys & _ & _ & _ & _ & _ & _ & Hscreen).
  assert (H0 : preserved (heap w) w) by (intros l o H; exact H).
  destruct (keeps_stations_page (heap w) df sf w H0) as [H1 _].
  rewrite Hrun in H1. simpl in H1. pose proof (H1 _ _ Hdf) as Hdf'.
  destruct (stations_page_run _ _ _ _ _ _ _ Hdf' Hq Hrows Hrides Hc)
    as (names' & w'' & gl' & tl' & season' & keys' & Hrun' & Hseason' & Hkeys' & _ & _ & _ & _ & _ & _ & Hscreen').
  assert (H0' : preserved (heap w') w') by (intros l o H; exact H).
  destruct (keeps_stations_page (heap w') df sf w' H0') as [H1' _].
  rewrite Hrun' in H1'. simpl in H1'.
  exists names, w', names', w'',
    (stations_screen season rides (nlargest 20 (station_counts keys))).
  split; [exact Hrun|]. split; [exact Hrun'|]. split; [exact Hscreen|].
  split; [|now apply H1'].
  rewrite Hscreen'. congruence.
Qed.

Lemma stations_page_rerun_same_chart_witness :
  exists names w' names' w'' rendered,
    stations_page 0%nat [Str (py "Summer")] (Sample.loaded Sample.trips) = (Ret names, w')
    /\ stations_page 0%nat [Str (py "Summer")] w' = (Ret names', w'')
    /\ screen w' = screen (Sample.loaded Sample.trips) ++ rendered
    /\ screen w'' = screen w' ++ rendered
    /\ heap w'' !! 0%nat = Some (Frame Sample.trips).
Proof.
  apply (stations_page_rerun_same_chart 0%nat [Str (py "Summer")]
           (Sample.loaded Sample.trips) Sample.trips Sample.trips
           (repeat (Num 1200) 40) (py "start_station_name")).
  - reflexivity.
  - reflexivity.
  - discriminate.
  - reflexivity.
  - reflexivity.
Defined.
